(** * Vast.ai auto-pricer: market snapshot builder and price decision engine

    A shallow embedding of [src/vastai_autopricer.py]: the dataclasses
    [MarketData], [PriceDecision] and [Machine], the methods
    [get_market_data], [calculate_price], [_get_price_position],
    [_price_for_rented_machine], [_price_for_idle_machine] and
    [_clamp_price] of [VastAIPricer], and the properties the specification
    states about them.

    Number model.  Python's [float] is idealised as an exact rational
    ([Q]): [*], [-], [/], [abs] and the comparisons are exact, the literals
    [0.9], [0.95], [0.92], [0.05] are the rationals they denote, and
    [round(x, n)] rounds the exact value to the nearest multiple of
    [10^-n], ties to the even multiple (what CPython does on the exact
    value of a double).  There is no NaN and no infinity in this model.
    [==] on prices is [Qeq]; a falsy float is one that is [== 0].
    Sums and quotients are exact, where those of the float code carry a
    rounding error and depend on the order of the summands: what is
    stated below about an average is what survives that error (whether
    it is present, that equal lists give equal averages, bounds after
    rounding to 2 decimals), never how an average compares with another
    statistic or that a sum may be reordered.

    Effects.  The subprocess call of [run_vastai_command] is the input of
    [get_market_data] (its parsed JSON, or [None]); log lines are not
    modelled, but the expressions the logging code evaluates are, because
    comparing a float with [None] raises [TypeError]. *)

From Stdlib Require Import ZArith QArith Qround Qabs Ascii String List Bool.
From Stdlib Require Import Lia Lqa.
From Stdlib Require Import Sorting.Sorted Sorting.Permutation DecimalString.
Import ListNotations.

Open Scope Q_scope.

(** ** Python numerics *)

Module Py.

(** [x < y] and [x > y] on floats. *)
Definition ltb (x y : Q) : bool := negb (Qle_bool y x).
Definition gtb (x y : Q) : bool := ltb y x.

(** Truth value of an [Optional[float]]: [None] and [0.0] are falsy. *)
Definition truthy (o : option Q) : bool :=
  match o with
  | Some q => negb (Qeq_bool q 0)
  | None => false
  end.

(** [a if a else b] *)
Definition or_else (a b : option Q) : option Q :=
  if truthy a then a else b.

(** [max(a, b)] and [min(a, b)]: the first argument is kept unless the
    second is strictly better. *)
Definition max2 (a b : Q) : Q := if gtb b a then b else a.
Definition min2 (a b : Q) : Q := if ltb b a then b else a.

(** [min(l)] of a non-empty list (0 stands for the [ValueError] of the
    empty list, which no caller reaches). *)
Definition min_list (l : list Q) : Q :=
  match l with
  | [] => 0
  | x :: xs => fold_left min2 xs x
  end.

(** [sum(l)] *)
Definition sum (l : list Q) : Q := fold_left Qplus l 0.

(** [len(l)] as a float divisor. *)
Definition len (l : list Q) : Q := inject_Z (Z.of_nat (length l)).

(** Nearest integer, ties to even. *)
Definition round_half_even (x : Q) : Z :=
  let d := Zpos (Qden x) in
  let q := (Qnum x / d)%Z in
  match (2 * (Qnum x mod d) ?= d)%Z with
  | Lt => q
  | Gt => (q + 1)%Z
  | Eq => if Z.even q then q else (q + 1)%Z
  end.

Fixpoint pow10 (n : nat) : positive :=
  match n with
  | O => 1%positive
  | S k => (10 * pow10 k)%positive
  end.

(** [round(x, ndigits)] *)
Definition round (x : Q) (ndigits : nat) : Q :=
  let s := pow10 ndigits in
  round_half_even (x * inject_Z (Zpos s)) # s.

(** [int(x)]: truncation towards zero. *)
Definition int (x : Q) : Z := Z.quot (Qnum x) (Zpos (Qden x)).

(** [str(n)] of an integer, as an f-string prints it. *)
Definition str (n : Z) : string := NilZero.string_of_int (Z.to_int n).

(** [list.sort()]: a stable ascending sort that only asks [<]. *)
Fixpoint insert (x : Q) (l : list Q) : list Q :=
  match l with
  | [] => [x]
  | y :: l' => if ltb y x then y :: insert x l' else x :: l
  end.

Fixpoint sort (l : list Q) : list Q :=
  match l with
  | [] => []
  | x :: l' => insert x (sort l')
  end.

(** [d.get(key, default)] on a key that may be missing. *)
Definition get {A : Type} (v : option A) (default : A) : A :=
  match v with
  | Some a => a
  | None => default
  end.

End Py.

(** ** Exceptions *)

Inductive result (A : Type) : Type :=
| Ok (a : A)
| TypeError.

Arguments Ok {A} a.
Arguments TypeError {A}.

Definition bind {A B : Type} (r : result A) (k : A -> result B) : result B :=
  match r with
  | Ok a => k a
  | TypeError => TypeError
  end.

Notation "x <- r ;; k" := (bind r (fun x => k))
  (at level 61, r at next level, right associativity).

(** [a > b] and [a * b] where [a] or [b] may be [None]: ordering a float
    against [None], or multiplying [None] by a float, raises. *)
Definition py_gt (a : Q) (b : option Q) : result bool :=
  match b with
  | Some q => Ok (Py.gtb a q)
  | None => TypeError
  end.

Definition py_mul (a : option Q) (b : Q) : result Q :=
  match a with
  | Some q => Ok (q * b)
  | None => TypeError
  end.

(** ** Data model *)

(** One element of the offer list returned by [vastai search offers]:
    a JSON object read with [.get], so every key may be missing. *)
Record Offer : Type := mkOffer {
  verification : option string;
  reliability2 : option Q;
  rented : option bool;
  dph_base : option Q
}.

Record MarketData : Type := mkMarketData {
  avg_price : option Q;
  median_price : option Q;
  min_price : option Q;
  available_count : nat;
  verified_count : nat;
  avg_reliability : Q;
  min_verified_price : option Q;
  unverified_count : nat;
  unverified_avg_price : option Q;
  unverified_median_price : option Q;
  unverified_min_price : option Q
}.

Inductive Action : Type := INCREASE | DECREASE | HOLD.

Record PriceDecision : Type := mkPriceDecision {
  new_price : Q;
  action : Action;
  reason : string
}.

Record Machine : Type := mkMachine {
  id : Z;
  gpu_name : string;
  num_gpus : Z;
  current_price : Q;
  is_rented : bool;
  verified : bool;
  reliability : Q;
  disk_space : Q;
  inet_down : Q;
  inet_up : Q
}.

(** The [config] dictionary built by [main]. *)
Record PricingConfig : Type := mkPricingConfig {
  interval_minutes : Z;
  base_price : Q;
  max_price : Q;
  high_demand_threshold : Z;
  low_demand_threshold : Z;
  target_gpu : string;
  target_num_gpus : Z;
  log_file : string;
  test_mode : bool
}.

(** ** Market snapshot builder *)

(** [o.get('verification') == 'verified'] *)
Definition is_verified_offer (o : Offer) : bool :=
  match verification o with
  | Some s => String.eqb s "verified"
  | None => false
  end.

(** [o.get('verification') in ['unverified', 'deverified']] *)
Definition is_unverified_offer (o : Offer) : bool :=
  match verification o with
  | Some s => String.eqb s "unverified" || String.eqb s "deverified"
  | None => false
  end.

(** [not offer.get('rented', False) and offer.get('dph_base', 0) > 0] *)
Definition is_available (o : Offer) : bool :=
  negb (Py.get (rented o) false) && Py.gtb (Py.get (dph_base o) 0) 0.

(** [offer['dph_base']]; the key is there wherever [is_available] holds. *)
Definition price_of (o : Offer) : Q := Py.get (dph_base o) 0.

Definition available_prices (offers : list Offer) : list Q :=
  map price_of (filter is_available offers).

Definition verified_available_prices (offers : list Offer) : list Q :=
  map price_of
    (filter (fun o => is_verified_offer o && is_available o) offers).

Definition unverified_offers (offers : list Offer) : list Offer :=
  filter is_unverified_offer offers.

Definition unverified_available_prices (offers : list Offer) : list Q :=
  map price_of (filter is_available (unverified_offers offers)).

Definition reliabilities (offers : list Offer) : list Q :=
  map (fun o => Py.get (reliability2 o) 0)
    (filter (fun o => Py.gtb (Py.get (reliability2 o) 0) 0) offers).

(** The three statistics of a non-empty price list, in the order the code
    computes them after [prices.sort()]: average, minimum, median. *)
Definition avg_of (prices : list Q) : Q :=
  Py.round (Py.sum (Py.sort prices) / Py.len (Py.sort prices)) 4.

Definition min_of (prices : list Q) : Q :=
  Py.round (Py.min_list (Py.sort prices)) 4.

Definition median_of (prices : list Q) : Q :=
  Py.round (nth (length (Py.sort prices) / 2) (Py.sort prices) 0) 4.

Definition get_market_data (offers : option (list Offer)) : MarketData :=
  match offers with
  | None | Some [] =>
      mkMarketData None None None 0 0 0 None 0 None None None
  | Some offers =>
      let available_count := length offers in
      let verified_count := length (filter is_verified_offer offers) in
      let avg_reliability :=
        match reliabilities offers with
        | [] => 0
        | rs => Py.round (Py.sum rs / Py.len rs) 2
        end in
      let available_prices := available_prices offers in
      let min_verified_price :=
        match verified_available_prices offers with
        | [] => None
        | vs => Some (Py.round (Py.min_list vs) 4)
        end in
      let unverified_count := length (unverified_offers offers) in
      let unverified_available_prices := unverified_available_prices offers in
      let '(unverified_avg_price, unverified_median_price,
            unverified_min_price) :=
        match unverified_available_prices with
        | [] => (None, None, None)
        | us => (Some (avg_of us), Some (median_of us), Some (min_of us))
        end in
      match available_prices with
      | [] =>
          mkMarketData None None None available_count verified_count
            avg_reliability min_verified_price unverified_count
            unverified_avg_price unverified_median_price unverified_min_price
      | ps =>
          mkMarketData (Some (avg_of ps)) (Some (median_of ps))
            (Some (min_of ps)) available_count verified_count
            avg_reliability min_verified_price unverified_count
            unverified_avg_price unverified_median_price unverified_min_price
      end
  end.

(** ** Price decision engine *)

Section Engine.

Variable config : PricingConfig.

(** [round(max(base_price, min(price, max_price)), 4)] *)
Definition _clamp_price (price : Q) : Q :=
  Py.round (Py.max2 (base_price config) (Py.min2 price (max_price config))) 4.

Definition _get_price_position (current_price : Q) (market : MarketData)
    (is_verified : bool) : result string :=
  let median :=
    if is_verified then median_price market
    else Py.or_else (unverified_median_price market) (median_price market) in
  let min_price :=
    if is_verified
    then Py.or_else (min_verified_price market) (min_price market)
    else Py.or_else (unverified_min_price market) (min_price market) in
  if negb (Py.truthy median) then Ok "Unknown"%string
  else
    above <- py_gt current_price median ;;
    if above then Ok "Above median"%string
    else
      competitive <- py_gt current_price min_price ;;
      if competitive then Ok "Competitive"%string
      else Ok "Below market"%string.

Definition _price_for_rented_machine (current : Q) (market : MarketData)
    : PriceDecision :=
  mkPriceDecision current HOLD "Machine is RENTED - holding current price".

(** [market.min_verified_price if (machine.verified and
    market.min_verified_price) else market.min_price] *)
Definition reference_min (market : MarketData) (machine : Machine)
    : option Q :=
  if verified machine && Py.truthy (min_verified_price market)
  then min_verified_price market
  else min_price market.

Definition _price_for_idle_machine (current : Q) (market : MarketData)
    (machine : Machine) : result PriceDecision :=
  if negb (Py.truthy (median_price market)) then
    Ok (mkPriceDecision (_clamp_price (current * 0.9)) DECREASE
          "Machine IDLE + no market data - decreasing to attract customers")
  else
    let reference_min := reference_min market machine in
    (* the final [return], reached when no earlier branch returned *)
    let held :=
      Ok (mkPriceDecision current HOLD
            "Machine IDLE but already at/below market minimum - holding price") in
    above_median <- py_gt current (median_price market) ;;
    if above_median then
      let multiplier := if verified machine then 0.95 else 0.90 in
      target <- py_mul (median_price market) multiplier ;;
      Ok (mkPriceDecision (_clamp_price target) DECREASE
            ("Machine IDLE + priced above median - dropping to "
             ++ Py.str (Py.int (multiplier * 100)) ++ "% of median")%string)
    else
      above_min <- py_gt current reference_min ;;
      if above_min then
        target <- py_mul reference_min 0.92 ;;
        if Py.gtb (Qabs (target - current)) (current * 0.05) then
          Ok (mkPriceDecision (_clamp_price target) DECREASE
                "Machine IDLE - pricing near market minimum to attract customers")
        else held
      else held.

Definition calculate_price (machine : Machine) (market : MarketData)
    : result PriceDecision :=
  let current := current_price machine in
  _ <- (if Py.truthy (median_price market)
        then _get_price_position current market (verified machine)
        else Ok ""%string) ;;
  if is_rented machine
  then Ok (_price_for_rented_machine current market)
  else _price_for_idle_machine current market machine.

End Engine.

(** The rationale of the above-median rule, with its f-string
    [int(multiplier*100)] printed. *)
Definition above_median_reason (is_verified : bool) : string :=
  if is_verified
  then "Machine IDLE + priced above median - dropping to 95% of median"
  else "Machine IDLE + priced above median - dropping to 90% of median".

(** ** The data-model invariant of a snapshot

    What every [MarketData] built by [get_market_data] satisfies and the
    engine relies on: the overall median and the overall minimum are
    present together, and no price statistic is negative. *)

Definition present {A : Type} (o : option A) : bool :=
  match o with
  | Some _ => true
  | None => false
  end.

Definition nonneg (o : option Q) : bool :=
  match o with
  | Some q => Qle_bool 0 q
  | None => true
  end.

Definition snapshot_ok (market : MarketData) : bool :=
  Bool.eqb (present (median_price market)) (present (min_price market))
  && nonneg (median_price market)
  && nonneg (min_price market)
  && nonneg (min_verified_price market).

(** ** The reference minimum as the specification words it

    "The minimum price of the peer population matching the machine's own
    verification tier, falling back to the overall population when the
    tier-specific minimum is absent."  To be compared with
    [reference_min], which is what the code computes. *)
Definition reference_min_spec (market : MarketData) (machine : Machine)
    : option Q :=
  let tier_min :=
    if verified machine then min_verified_price market
    else unverified_min_price market in
  match tier_min with
  | Some q => Some q
  | None => min_price market
  end.

(** ** Sample inputs *)

(** The configuration [main] builds when no option is given. *)
Definition default_config : PricingConfig :=
  mkPricingConfig 10 0.50 2.00 80 30 "RTX_5090" 1 "vastai_pricing_log.txt"
    false.

(** An offer as the search returns it: rentable, reliability above 0.95. *)
Definition offer (tier : string) (price : Q) : Offer :=
  mkOffer (Some tier) (Some 0.99) (Some false) (Some price).

(** An offer that is rented at the moment. *)
Definition rented_offer (tier : string) (price : Q) : Offer :=
  mkOffer (Some tier) (Some 0.99) (Some true) (Some price).

Definition machine (price : Q) (is_rented verified : bool) : Machine :=
  mkMachine 1 "RTX_5090" 1 price is_rented verified 0.99 100 500 500.

(** Three verified offers: minimum 0.80, median 1.20. *)
Definition verified_feed : list Offer :=
  [offer "verified" 1.20; offer "verified" 0.80; offer "verified" 1.30].

(** One unverified offer at 1.00. *)
Definition single_feed : list Offer := [offer "unverified" 1.00].

(** A cheap verified offer and a dearer unverified one. *)
Definition mixed_feed : list Offer :=
  [offer "verified" 0.50; offer "unverified" 0.80].

(** One verified offer at 0.50 and three unverified ones: the overall
    minimum is 0.50, the unverified minimum 0.80, the overall median
    1.20. *)
Definition tier_feed : list Offer :=
  [offer "verified" 0.50; offer "unverified" 0.80; offer "unverified" 1.20;
   offer "unverified" 1.30].

(** One offer priced below half of the last kept decimal. *)
Definition dust_feed : list Offer := [offer "verified" 0.00001].

(** Five offers, out of order. *)
Definition five_feed : list Offer :=
  [offer "unverified" 0.90; offer "unverified" 0.50; offer "unverified" 0.70;
   offer "unverified" 1.10; offer "unverified" 0.60].

(** Four offers: the two middle prices are 0.60 and 0.80. *)
Definition four_feed : list Offer :=
  [offer "unverified" 0.80; offer "unverified" 0.40; offer "unverified" 1.00;
   offer "unverified" 0.60].

(** A floor that is not a multiple of 0.0001, and a floor above the
    ceiling. *)
Definition fine_floor_config : PricingConfig :=
  mkPricingConfig 10 0.50004 2.00 80 30 "RTX_5090" 1 "vastai_pricing_log.txt"
    false.

Definition inverted_config : PricingConfig :=
  mkPricingConfig 10 3.00 2.00 80 30 "RTX_5090" 1 "vastai_pricing_log.txt"
    false.

(** ** The statistics of a snapshot in closed form

    [stat_of f prices] is what the builder stores for a population: [None]
    when the eligible-price list is empty, the statistic otherwise. *)
Definition stat_of (f : list Q -> Q) (prices : list Q) : option Q :=
  match prices with
  | [] => None
  | _ :: _ => Some (f prices)
  end.

(** [round(min(prices), 4)] on the list as filtered, the way
    [min_verified_price] is computed. *)
Definition rounded_min (prices : list Q) : Q :=
  Py.round (Py.min_list prices) 4.

(** [round(sum(reliabilities) / len(reliabilities), 2) if reliabilities
    else 0.0] *)
Definition avg_reliability_of (offers : list Offer) : Q :=
  match reliabilities offers with
  | [] => 0
  | _ :: _ =>
      Py.round (Py.sum (reliabilities offers) / Py.len (reliabilities offers))
        2
  end.

(** ** Machine listing *)

(** [s.replace(old, new)] for one-character [old] and [new]. *)
Fixpoint str_replace (old new : Ascii.ascii) (s : string) : string :=
  match s with
  | EmptyString => EmptyString
  | String c s' =>
      String (if Ascii.eqb c old then new else c) (str_replace old new s')
  end.

(** One element of [response['machines']].  The keys read with a
    subscript are fields; the ones read with [.get] may be missing. *)
Record MachineData : Type := mkMachineData {
  raw_id : Z;
  raw_gpu_name : string;
  raw_num_gpus : Z;
  raw_min_bid_price : Q;
  raw_current_rentals_running : Z;
  raw_verified : option bool;
  raw_reliability2 : option Q;
  raw_disk_space : option Q;
  raw_inet_down : option Q;
  raw_inet_up : option Q
}.

(** The JSON object printed by [vastai show machines --raw]; the key
    ['machines'] may be missing. *)
Record MachinesResponse : Type := mkMachinesResponse {
  machines : option (list MachineData)
}.

(** [machine_data['gpu_name'].replace(' ', '_')] *)
Definition listed_gpu_name (machine_data : MachineData) : string :=
  str_replace " "%char "_"%char (raw_gpu_name machine_data).

(** [gpu_name == target_gpu and num_gpus == target_count] *)
Definition is_target (config : PricingConfig) (machine_data : MachineData)
    : bool :=
  String.eqb (listed_gpu_name machine_data) (target_gpu config)
  && Z.eqb (raw_num_gpus machine_data) (target_num_gpus config).

(** The [Machine(...)] built from a matching entry. *)
Definition to_machine (machine_data : MachineData) : Machine :=
  mkMachine (raw_id machine_data) (listed_gpu_name machine_data)
    (raw_num_gpus machine_data) (raw_min_bid_price machine_data)
    (Z.ltb 0 (raw_current_rentals_running machine_data))
    (Py.get (raw_verified machine_data) false)
    (Py.get (raw_reliability2 machine_data) 0)
    (Py.get (raw_disk_space machine_data) 0)
    (Py.get (raw_inet_down machine_data) 0)
    (Py.get (raw_inet_up machine_data) 0).

(** [get_my_machines], as a function of what [vastai show machines]
    answered. *)
Definition get_my_machines (config : PricingConfig)
    (response : option MachinesResponse) : list Machine :=
  match response with
  | None => []
  | Some r =>
      match machines r with
      | None => []
      | Some entries => map to_machine (filter (is_target config) entries)
      end
  end.

(** ** The marketplace client and the processing loop

    [run_vastai_command] runs the [vastai] command line tool and parses
    what it prints.  The tool is the outside world: a state [W] and, for
    each of the three commands the program issues, what the tool answers
    ([None] when the call fails or prints nothing usable) and the state
    it leaves.  A session records the commands issued so far, oldest
    first.

    The answers are well-formed: a listing entry carries the keys the
    code reads with a subscript, and a key read with [.get] holds a value
    of its type or is missing.  A JSON [null] in place of a price or a
    reliability, on which [get_market_data] raises [TypeError], and an
    entry without [gpu_name], on which [get_my_machines] raises
    [KeyError], are outside the model; the one exception it carries is
    the [TypeError] of [calculate_price]. *)

Inductive Command : Type :=
| ShowMachines
    (* ['vastai', 'show', 'machines', '--raw'] *)
| SearchOffers (search_query : string)
    (* ['vastai', 'search', 'offers', search_query, '--raw'] *)
| SetMinBid (machine_id : Z) (price : Q).
    (* ['vastai', 'set', 'min-bid', str(machine_id), '--price',
       str(new_price), '--raw'] *)

(** The JSON object printed by [vastai set min-bid]. *)
Record SetResult : Type := mkSetResult {
  success : option bool
}.

Record Cli (W : Type) : Type := mkCli {
  show_machines : W -> option MachinesResponse * W;
  search_offers : string -> W -> option (list Offer) * W;
  set_min_bid : Z -> Q -> W -> option SetResult * W
}.

Arguments show_machines {W} _.
Arguments search_offers {W} _.
Arguments set_min_bid {W} _.

Record Session (W : Type) : Type := mkSession {
  world : W;
  issued : list Command
}.

Arguments mkSession {W} _ _.
Arguments world {W} _.
Arguments issued {W} _.

Definition is_set_min_bid (c : Command) : bool :=
  match c with
  | SetMinBid _ _ => true
  | _ => false
  end.

(** [f"gpu_name={gpu_name} num_gpus={num_gpus} rentable=true
    reliability>0.95 verified=any"] *)
Definition search_query_for (gpu_name : string) (num_gpus : Z) : string :=
  ("gpu_name=" ++ gpu_name ++ " num_gpus=" ++ Py.str num_gpus
   ++ " rentable=true reliability>0.95 verified=any")%string.

Section Client.

Context {W : Type}.
Variable config : PricingConfig.
Variable cli : Cli W.

Definition get_my_machines_in (s : Session W) : list Machine * Session W :=
  let '(response, w) := show_machines cli (world s) in
  (get_my_machines config response,
   mkSession w (issued s ++ [ShowMachines])).

Definition get_market_data_in (gpu_name : string) (num_gpus : Z)
    (s : Session W) : MarketData * Session W :=
  let search_query := search_query_for gpu_name num_gpus in
  let '(offers, w) := search_offers cli search_query (world s) in
  (get_market_data offers,
   mkSession w (issued s ++ [SearchOffers search_query])).

Definition update_machine_price (machine_id : Z) (new_price : Q)
    (s : Session W) : bool * Session W :=
  if test_mode config then (true, s)
  else
    let '(result, w) := set_min_bid cli machine_id new_price (world s) in
    let s' := mkSession w (issued s ++ [SetMinBid machine_id new_price]) in
    match result with
    | Some r => (Py.get (success r) false, s')
    | None => (false, s')
    end.

(** The body of [for machine in machines]; an exception raised by
    [calculate_price] ends the loop. *)
Fixpoint process_each (todo : list Machine) (s : Session W)
    : result unit * Session W :=
  match todo with
  | [] => (Ok tt, s)
  | machine :: rest =>
      let '(market, s1) :=
        get_market_data_in (gpu_name machine) (num_gpus machine) s in
      match calculate_price config machine market with
      | TypeError => (TypeError, s1)
      | Ok decision =>
          match action decision with
          | HOLD => process_each rest s1
          | _ =>
              let '(_, s2) :=
                update_machine_price (id machine) (new_price decision) s1 in
              process_each rest s2
          end
      end
  end.

Definition process_machines (s : Session W) : result unit * Session W :=
  let '(machines, s0) := get_my_machines_in s in
  match machines with
  | [] => (Ok tt, s0)
  | _ :: _ => process_each machines s0
  end.

End Client.

(** What a round of [process_machines] over the machines [todo] may
    issue after the listing: a search for one of the machines, or a new
    price for one of them that is idle, the price being a clamped one. *)
Definition is_search_offers (c : Command) : bool :=
  match c with
  | SearchOffers _ => true
  | _ => false
  end.

Definition allowed_command (config : PricingConfig) (todo : list Machine)
    (c : Command) : Prop :=
  match c with
  | ShowMachines => False
  | SearchOffers q =>
      exists m, In m todo /\ q = search_query_for (gpu_name m) (num_gpus m)
  | SetMinBid i p =>
      exists m target,
        In m todo /\ id m = i /\ is_rented m = false /\
        p = _clamp_price config target
  end.

(** [c in s] for a character [c]. *)
Fixpoint contains_char (c : Ascii.ascii) (s : string) : bool :=
  match s with
  | EmptyString => false
  | String c' s' => Ascii.eqb c' c || contains_char c s'
  end.

(** ** Repricing on a market that does not move

    What the next round sees of a machine when the marketplace has taken
    the decision: [process_machines] sends the new price unless the
    action is HOLD, and the next listing reports it as [min_bid_price]. *)
Definition with_price (m : Machine) (price : Q) : Machine :=
  mkMachine (id m) (gpu_name m) (num_gpus m) price (is_rented m) (verified m)
    (reliability m) (disk_space m) (inet_down m) (inet_up m).

Definition apply_decision (m : Machine) (d : PriceDecision) : Machine :=
  match action d with
  | HOLD => m
  | _ => with_price m (new_price d)
  end.

Definition next_round (config : PricingConfig) (market : MarketData)
    (m : Machine) : Machine :=
  match calculate_price config m market with
  | Ok d => apply_decision m d
  | TypeError => m
  end.

(** A marketplace that lists one verified idle machine and one rented
    machine, answers every search with [verified_feed], and accepts every
    price. *)
Definition sample_listing : list MachineData :=
  [mkMachineData 7 "RTX 5090" 1 1.00 0 (Some true) (Some 0.99) None None None;
   mkMachineData 8 "RTX 5090" 1 1.50 2 (Some true) None None None None;
   mkMachineData 9 "RTX 4090" 1 0.40 0 None None None None None].

Definition sample_cli : Cli unit :=
  mkCli unit
    (fun w => (Some (mkMachinesResponse (Some sample_listing)), w))
    (fun _ w => (Some verified_feed, w))
    (fun _ _ w => (Some (mkSetResult (Some true)), w)).

Definition test_config : PricingConfig :=
  mkPricingConfig 10 0.50 2.00 80 30 "RTX_5090" 1 "vastai_pricing_log.txt"
    true.

Definition spaced_target_config : PricingConfig :=
  mkPricingConfig 10 0.50 2.00 80 30 "RTX 5090" 1 "vastai_pricing_log.txt"
    false.

(** * Properties

    The specification's MarketSnapshot is a snapshot built from an offer
    list.  Statements about the engine quantify over every [MarketData]
    record that satisfies [snapshot_ok]; [get_market_data_ok] shows that
    every built snapshot does. *)

(** ** Comparisons *)

Lemma gtb_true (a b : Q) : Py.gtb a b = true <-> b < a.
Proof.
  unfold Py.gtb, Py.ltb. rewrite negb_true_iff.
  split; intro H.
  - apply Qnot_le_lt. intro Hle. apply Qle_bool_iff in Hle. congruence.
  - destruct (Qle_bool a b) eqn:E; [|reflexivity].
    apply Qle_bool_iff in E. exfalso. exact (Qlt_not_le _ _ H E).
Qed.

Lemma gtb_false (a b : Q) : Py.gtb a b = false <-> a <= b.
Proof.
  unfold Py.gtb, Py.ltb. rewrite negb_false_iff. apply Qle_bool_iff.
Qed.

Lemma truthy_Some (q : Q) : Py.truthy (Some q) = true <-> ~ q == 0.
Proof.
  simpl. rewrite negb_true_iff. split; intro H.
  - now apply Qeq_bool_neq.
  - destruct (Qeq_bool q 0) eqn:E; [|reflexivity].
    apply Qeq_bool_iff in E. contradiction.
Qed.

Lemma truthy_Some_false (q : Q) : Py.truthy (Some q) = false <-> q == 0.
Proof.
  simpl. rewrite negb_false_iff. apply Qeq_bool_iff.
Qed.

(** [max(a, b)] and [min(a, b)] by cases. *)
Lemma max2_cases (a b : Q) :
  (a < b /\ Py.max2 a b = b) \/ (b <= a /\ Py.max2 a b = a).
Proof.
  unfold Py.max2. destruct (Py.gtb b a) eqn:E.
  - left. apply gtb_true in E. auto.
  - right. apply gtb_false in E. auto.
Qed.

Lemma min2_cases (a b : Q) :
  (b < a /\ Py.min2 a b = b) \/ (a <= b /\ Py.min2 a b = a).
Proof.
  unfold Py.min2. change (Py.ltb b a) with (Py.gtb a b).
  destruct (Py.gtb a b) eqn:E.
  - left. apply gtb_true in E. auto.
  - right. apply gtb_false in E. auto.
Qed.

(** ** Rounding *)

(** The rounded integer is within one half of the argument, and a tie
    goes to an even integer. *)
Lemma round_half_even_spec (n : Z) (d : positive) (k : Z) :
  k = Py.round_half_even (n # d) ->
  (2 * n - Zpos d <= 2 * Zpos d * k <= 2 * n + Zpos d)%Z /\
  ((2 * Zpos d * k = 2 * n + Zpos d)%Z \/ (2 * Zpos d * k = 2 * n - Zpos d)%Z
   -> Z.even k = true).
Proof.
  unfold Py.round_half_even. cbn [Qnum Qden]. cbv zeta.
  assert (Hd : (0 < Zpos d)%Z) by reflexivity.
  pose proof (Z.div_mod n (Zpos d) ltac:(lia)) as Hdm.
  pose proof (Z.mod_pos_bound n (Zpos d) Hd) as Hr.
  set (q := (n / Zpos d)%Z) in *. set (r := (n mod Zpos d)%Z) in *.
  set (D := Zpos d) in *.
  assert (Hq : (2 * D * q = 2 * n - 2 * r)%Z) by (rewrite Hdm; ring).
  assert (Hq1 : (2 * D * (q + 1) = 2 * n - 2 * r + 2 * D)%Z)
    by (rewrite Hdm; ring).
  clearbody q r D.
  destruct (Z.compare_spec (2 * r) D) as [C|C|C]; intros ->.
  - destruct (Z.even q) eqn:Ev.
    + split; [lia|]. intros _. exact Ev.
    + split; [lia|]. intros _. rewrite Z.even_add, Ev. reflexivity.
  - split; [lia|]. intros [H|H]; lia.
  - split; [lia|]. intros [H|H]; lia.
Qed.

Lemma round_half_even_mono (x y : Q) :
  x <= y -> (Py.round_half_even x <= Py.round_half_even y)%Z.
Proof.
  destruct x as [n1 d1], y as [n2 d2]. unfold Qle. cbn [Qnum Qden]. intro Hle.
  destruct (round_half_even_spec n1 d1 _ eq_refl) as [[_ U1] T1].
  destruct (round_half_even_spec n2 d2 _ eq_refl) as [[L2 _] T2].
  set (k1 := Py.round_half_even (n1 # d1)) in *.
  set (k2 := Py.round_half_even (n2 # d2)) in *.
  set (D1 := Zpos d1) in *. set (D2 := Zpos d2) in *.
  assert (H1 : (0 < D1)%Z) by reflexivity.
  assert (H2 : (0 < D2)%Z) by reflexivity.
  destruct (Z_le_gt_dec k1 k2) as [|Hgt]; [assumption|exfalso].
  (* k1 - 1/2 <= x <= y <= k2 + 1/2, over the common denominator D1 D2 *)
  assert (A : ((2 * k1 - 1) * (D1 * D2) <= 2 * (n1 * D2))%Z).
  { replace ((2 * k1 - 1) * (D1 * D2))%Z
      with ((2 * D1 * k1 - D1) * D2)%Z by ring.
    replace (2 * (n1 * D2))%Z with (2 * n1 * D2)%Z by ring.
    apply Z.mul_le_mono_nonneg_r; lia. }
  assert (B : (2 * (n2 * D1) <= (2 * k2 + 1) * (D1 * D2))%Z).
  { replace ((2 * k2 + 1) * (D1 * D2))%Z
      with ((2 * D2 * k2 + D2) * D1)%Z by ring.
    replace (2 * (n2 * D1))%Z with (2 * n2 * D1)%Z by ring.
    apply Z.mul_le_mono_nonneg_r; lia. }
  assert (P : (0 < D1 * D2)%Z) by (apply Z.mul_pos_pos; assumption).
  assert (C : ((2 * k1 - 1) * (D1 * D2) <= (2 * k2 + 1) * (D1 * D2))%Z) by lia.
  apply Z.mul_le_mono_pos_r in C; [|assumption].
  assert (K : (k1 = k2 + 1)%Z) by lia.
  (* so x = y is the tie between k2 and k1 = k2 + 1; x went up to k1 and
     y went down to k2, and both would have to be even *)
  assert (EA : ((2 * D1 * k1 - D1) * D2 = 2 * n1 * D2)%Z).
  { replace ((2 * D1 * k1 - D1) * D2)%Z
      with ((2 * k1 - 1) * (D1 * D2))%Z by ring.
    replace (2 * n1 * D2)%Z with (2 * (n1 * D2))%Z by ring.
    apply Z.le_antisymm; [exact A|].
    replace (2 * k1 - 1)%Z with (2 * k2 + 1)%Z by lia. lia. }
  apply Z.mul_cancel_r in EA; [|lia].
  assert (EB : ((2 * D2 * k2 + D2) * D1 = 2 * n2 * D1)%Z).
  { replace ((2 * D2 * k2 + D2) * D1)%Z
      with ((2 * k2 + 1) * (D1 * D2))%Z by ring.
    replace (2 * n2 * D1)%Z with (2 * (n2 * D1))%Z by ring.
    apply Z.le_antisymm; [|exact B].
    replace (2 * k2 + 1)%Z with (2 * k1 - 1)%Z by lia. lia. }
  apply Z.mul_cancel_r in EB; [|lia].
  assert (Ev1 : Z.even k1 = true) by (apply T1; left; lia).
  assert (Ev2 : Z.even k2 = true) by (apply T2; right; lia).
  rewrite K, Z.even_add, Ev2 in Ev1. discriminate.
Qed.

Lemma round_mono (x y : Q) (n : nat) : x <= y -> Py.round x n <= Py.round y n.
Proof.
  intro H. unfold Py.round, Qle. cbn [Qnum Qden].
  apply Z.mul_le_mono_nonneg_r; [lia|].
  apply round_half_even_mono. apply Qmult_le_compat_r; [assumption|].
  unfold Qle. simpl. lia.
Qed.

(** Two roundings that bound each other are the same value, not merely
    equal fractions: both carry the denominator [10^n]. *)
Lemma round_antisym (x y : Q) (n : nat) :
  Py.round x n <= Py.round y n -> Py.round y n <= Py.round x n ->
  Py.round x n = Py.round y n.
Proof.
  unfold Py.round, Qle. cbn [Qnum Qden]. intros H1 H2.
  f_equal. nia.
Qed.

Lemma round_compat (x y : Q) (n : nat) : x == y -> Py.round x n = Py.round y n.
Proof.
  intro H. apply round_antisym; apply round_mono; rewrite H; apply Qle_refl.
Qed.

(** Rounding a value that already has [n] decimals changes nothing. *)
Lemma round_on_grid (k : Z) (n : nat) :
  Py.round (k # Py.pow10 n) n = k # Py.pow10 n.
Proof.
  unfold Py.round. f_equal.
  unfold Py.round_half_even, Qmult, inject_Z. cbn [Qnum Qden].
  rewrite Pos.mul_1_r, Z.mod_mul, Z.div_mul by discriminate.
  reflexivity.
Qed.

Lemma round_idem (x : Q) (n : nat) : Py.round (Py.round x n) n = Py.round x n.
Proof.
  change (Py.round x n)
    with (Py.round_half_even (x * inject_Z (Zpos (Py.pow10 n))) # Py.pow10 n).
  apply round_on_grid.
Qed.

Lemma round_0 (n : nat) : Py.round 0 n == 0.
Proof. unfold Py.round, Qeq. reflexivity. Qed.

Lemma round_nonneg (x : Q) (n : nat) : 0 <= x -> 0 <= Py.round x n.
Proof.
  intro H. rewrite <- (round_0 n). now apply round_mono.
Qed.

(** ** Clamping *)

Section Clamp.

Variable config : PricingConfig.

(** The price before rounding, [max(base_price, min(x, max_price))], is
    at or above the floor, and at or below a ceiling that is not below the
    floor. *)
Lemma clamp_above_floor (x : Q) :
  base_price config <=
  Py.max2 (base_price config) (Py.min2 x (max_price config)).
Proof.
  destruct (max2_cases (base_price config) (Py.min2 x (max_price config)))
    as [[H ->]|[_ ->]].
  - now apply Qlt_le_weak.
  - apply Qle_refl.
Qed.

Lemma clamp_below_ceiling (x : Q) :
  base_price config <= max_price config ->
  Py.max2 (base_price config) (Py.min2 x (max_price config))
  <= max_price config.
Proof.
  intro Hlh.
  destruct (max2_cases (base_price config) (Py.min2 x (max_price config)))
    as [[_ ->]|[_ ->]]; [|assumption].
  destruct (min2_cases x (max_price config)) as [[_ ->]|[H ->]];
    [apply Qle_refl|assumption].
Qed.

(** With the ceiling at or below the floor, the floor wins. *)
Lemma clamp_inverted_bounds (x : Q) :
  max_price config <= base_price config ->
  Py.max2 (base_price config) (Py.min2 x (max_price config))
  = base_price config.
Proof.
  intro Hhl.
  destruct (max2_cases (base_price config) (Py.min2 x (max_price config)))
    as [[H E]|[_ E]]; [|exact E].
  exfalso. apply (Qlt_not_le _ _ H).
  destruct (min2_cases x (max_price config)) as [[_ ->]|[Hx ->]];
    [assumption|].
  now apply Qle_trans with (max_price config).
Qed.

Lemma clamp_idem (x : Q) :
  _clamp_price config (_clamp_price config x) = _clamp_price config x.
Proof.
  unfold _clamp_price.
  set (y := Py.max2 (base_price config) (Py.min2 x (max_price config))).
  pose proof (clamp_above_floor x) as Hlo. fold y in Hlo.
  destruct (min2_cases (Py.round y 4) (max_price config))
    as [[Hc ->]|[Hc ->]].
  - (* the rounded price went above the ceiling *)
    destruct (max2_cases (base_price config) (max_price config))
      as [[Hlh ->]|[Hlh ->]].
    + apply round_antisym.
      * rewrite <- (round_idem y). apply round_mono. now apply Qlt_le_weak.
      * apply round_mono. apply clamp_below_ceiling. now apply Qlt_le_weak.
    + unfold y. now rewrite clamp_inverted_bounds.
  - destruct (max2_cases (base_price config) (Py.round y 4))
      as [[_ ->]|[Hr ->]].
    + apply round_idem.
    + (* the rounded price went below the floor *)
      apply round_antisym.
      * now apply round_mono.
      * rewrite <- (round_idem y). now apply round_mono.
Qed.

Lemma clamp_bounds (x : Q) :
  base_price config <= max_price config ->
  Py.round (base_price config) 4 <= _clamp_price config x /\
  _clamp_price config x <= Py.round (max_price config) 4.
Proof.
  intro Hlh. unfold _clamp_price. split; apply round_mono.
  - apply clamp_above_floor.
  - now apply clamp_below_ceiling.
Qed.

End Clamp.

(** ** Sorting *)

Lemma insert_perm (x : Q) (l : list Q) : Permutation (x :: l) (Py.insert x l).
Proof.
  induction l as [|y l IH]; simpl.
  - apply Permutation_refl.
  - destruct (Py.ltb y x).
    + apply perm_trans with (y :: x :: l); [apply perm_swap|].
      now apply perm_skip.
    + apply Permutation_refl.
Qed.

Lemma sort_perm (l : list Q) : Permutation l (Py.sort l).
Proof.
  induction l as [|x l IH]; simpl.
  - apply perm_nil.
  - apply perm_trans with (x :: Py.sort l); [now apply perm_skip|].
    apply insert_perm.
Qed.

Lemma sort_length (l : list Q) : length (Py.sort l) = length l.
Proof. symmetry. apply Permutation_length, sort_perm. Qed.

Lemma insert_hd (a x : Q) (l : list Q) :
  a <= x -> HdRel Qle a l -> HdRel Qle a (Py.insert x l).
Proof.
  intros Hax Hl. destruct l as [|y l]; simpl.
  - now constructor.
  - destruct (Py.ltb y x); constructor; [|assumption].
    now inversion Hl.
Qed.

Lemma insert_sorted (x : Q) (l : list Q) :
  Sorted Qle l -> Sorted Qle (Py.insert x l).
Proof.
  induction 1 as [|y l Hs IH Hhd]; simpl.
  - repeat constructor.
  - destruct (Py.ltb y x) eqn:E.
    + constructor; [assumption|].
      apply insert_hd; [|assumption].
      apply Qlt_le_weak. now apply (gtb_true x y).
    + constructor; [now constructor|].
      constructor. now apply (gtb_false x y).
Qed.

Lemma sort_sorted (l : list Q) : Sorted Qle (Py.sort l).
Proof.
  induction l as [|x l IH]; simpl; [constructor|now apply insert_sorted].
Qed.

(** ** Invariants of a built snapshot *)

Lemma fold_min2_In (l : list Q) (x : Q) : In (fold_left Py.min2 l x) (x :: l).
Proof.
  revert x. induction l as [|y l IH]; intro x; cbn [fold_left].
  - now left.
  - destruct (IH (Py.min2 x y)) as [H|H].
    + rewrite <- H. unfold Py.min2. destruct (Py.ltb y x).
      * right. now left.
      * now left.
    + right. now right.
Qed.

Lemma min_list_In (x : Q) (l : list Q) : In (Py.min_list (x :: l)) (x :: l).
Proof. apply fold_min2_In. Qed.

Lemma available_positive (o : Offer) : is_available o = true -> 0 < price_of o.
Proof.
  unfold is_available, price_of. intro H.
  apply andb_prop in H as [_ H]. now apply gtb_true.
Qed.

Lemma prices_positive (f : Offer -> bool) (offers : list Offer) :
  (forall o, f o = true -> is_available o = true) ->
  Forall (fun p => 0 < p) (map price_of (filter f offers)).
Proof.
  intro Hf. apply Forall_forall. intros p Hp.
  apply in_map_iff in Hp as (o & <- & Ho).
  apply filter_In in Ho as [_ Ho]. apply available_positive. auto.
Qed.

Lemma min_list_positive (l : list Q) :
  l <> [] -> Forall (fun p => 0 < p) l -> 0 < Py.min_list l.
Proof.
  intros Hne Hall. destruct l as [|x l]; [congruence|].
  rewrite Forall_forall in Hall. apply Hall, min_list_In.
Qed.

Lemma sort_positive (l : list Q) :
  Forall (fun p => 0 < p) l -> Forall (fun p => 0 < p) (Py.sort l).
Proof.
  intro H. eapply Permutation_Forall; [apply sort_perm|assumption].
Qed.

Lemma sort_nonempty (l : list Q) : l <> [] -> Py.sort l <> [].
Proof.
  intros Hne E. apply Hne. apply length_zero_iff_nil.
  rewrite <- sort_length, E. reflexivity.
Qed.

Lemma min_of_nonneg (l : list Q) :
  l <> [] -> Forall (fun p => 0 < p) l -> 0 <= min_of l.
Proof.
  intros Hne Hall. apply round_nonneg, Qlt_le_weak.
  apply min_list_positive; [now apply sort_nonempty|now apply sort_positive].
Qed.

Lemma median_of_nonneg (l : list Q) :
  l <> [] -> Forall (fun p => 0 < p) l -> 0 <= median_of l.
Proof.
  intros Hne Hall. apply round_nonneg, Qlt_le_weak.
  apply sort_positive in Hall. rewrite Forall_forall in Hall.
  apply Hall, nth_In.
  apply Nat.div_lt; [|lia].
  destruct (Py.sort l) eqn:E; [now apply sort_nonempty in E|simpl; lia].
Qed.

Lemma nonneg_Some (q : Q) : 0 <= q -> nonneg (Some q) = true.
Proof. intro H. now apply Qle_bool_iff. Qed.

Lemma nonneg_min_list (l : list Q) :
  Forall (fun p => 0 < p) l ->
  nonneg match l with
         | [] => None
         | x :: xs => Some (Py.round (Py.min_list (x :: xs)) 4)
         end = true.
Proof.
  intro H. destruct l as [|x xs]; [reflexivity|].
  apply nonneg_Some, round_nonneg, Qlt_le_weak.
  now apply min_list_positive.
Qed.

(** Every snapshot the builder returns satisfies the invariant. *)
Lemma get_market_data_ok (offers : option (list Offer)) :
  snapshot_ok (get_market_data offers) = true.
Proof.
  destruct offers as [[|o offers]|]; [reflexivity| |reflexivity].
  unfold get_market_data.
  set (feed := o :: offers).
  assert (Hv := nonneg_min_list (verified_available_prices feed)
                  (prices_positive _ feed
                     (fun o' H => proj2 (andb_prop _ _ H)))).
  assert (Hpos : Forall (fun p => 0 < p) (available_prices feed))
    by (apply prices_positive; auto).
  destruct (unverified_available_prices feed);
    destruct (available_prices feed) as [|p ps]; unfold snapshot_ok;
    cbn [median_price min_price min_verified_price present nonneg Bool.eqb andb];
    try exact Hv.
  all: rewrite (proj2 (Qle_bool_iff _ _)
                  (median_of_nonneg (p :: ps) ltac:(discriminate) Hpos)).
  all: rewrite (proj2 (Qle_bool_iff _ _)
                  (min_of_nonneg (p :: ps) ltac:(discriminate) Hpos)).
  all: exact Hv.
Qed.

(** ** The logging prologue of [calculate_price] *)

Lemma truthy_present (o : option Q) : Py.truthy o = true -> present o = true.
Proof. destruct o; [reflexivity|discriminate]. Qed.

Lemma or_else_present (a b : option Q) :
  present b = true -> present (Py.or_else a b) = true.
Proof.
  intro H. unfold Py.or_else. destruct (Py.truthy a) eqn:E; [|assumption].
  now apply truthy_present.
Qed.

Lemma or_else_truthy (a b : option Q) :
  Py.truthy b = true -> Py.truthy (Py.or_else a b) = true.
Proof.
  intro H. unfold Py.or_else. now destruct (Py.truthy a) eqn:E.
Qed.

Lemma py_gt_present (a : Q) (b : option Q) :
  present b = true -> exists r, py_gt a b = Ok r.
Proof. destruct b; [eexists; reflexivity|discriminate]. Qed.

(** With a usable median and a minimum to compare with, the position is
    computed without an exception. *)
Lemma get_price_position_returns (current : Q) (market : MarketData)
    (is_verified : bool) :
  Py.truthy (median_price market) = true ->
  present (min_price market) = true ->
  exists s, _get_price_position current market is_verified = Ok s.
Proof.
  intros Hmed Hmin. unfold _get_price_position.
  set (median := if is_verified then _ else _).
  set (minimum := if is_verified then _ else _).
  assert (Tm : Py.truthy median = true)
    by (unfold median; destruct is_verified;
        [assumption|now apply or_else_truthy]).
  assert (Pm : present minimum = true)
    by (unfold minimum; destruct is_verified; now apply or_else_present).
  rewrite Tm. cbn [negb].
  destruct (py_gt_present current median (truthy_present _ Tm)) as [b1 ->].
  destruct (py_gt_present current minimum Pm) as [b2 ->].
  cbn [bind]. destruct b1; [|destruct b2]; eexists; reflexivity.
Qed.

Lemma snapshot_ok_min (market : MarketData) :
  snapshot_ok market = true ->
  Py.truthy (median_price market) = true ->
  present (min_price market) = true.
Proof.
  unfold snapshot_ok. intros Hok Hmed.
  apply truthy_present in Hmed.
  repeat (apply andb_prop in Hok as [Hok _]).
  rewrite Hmed in Hok. now destruct (present (min_price market)).
Qed.

(** On a snapshot that satisfies the invariant, [calculate_price] is the
    strategy of the machine's rental status. *)
Lemma calculate_price_dispatch (config : PricingConfig) (m : Machine)
    (market : MarketData) :
  snapshot_ok market = true ->
  calculate_price config m market =
  if is_rented m
  then Ok (_price_for_rented_machine (current_price m) market)
  else _price_for_idle_machine config (current_price m) market m.
Proof.
  intro Hok. unfold calculate_price.
  destruct (Py.truthy (median_price market)) eqn:Hmed; [|reflexivity].
  destruct (get_price_position_returns (current_price m) market (verified m)
              Hmed (snapshot_ok_min _ Hok Hmed)) as [s ->].
  reflexivity.
Qed.

(** Without a usable median nothing is logged about the market. *)
Lemma calculate_price_no_median (config : PricingConfig) (m : Machine)
    (market : MarketData) :
  Py.truthy (median_price market) = false ->
  calculate_price config m market =
  if is_rented m
  then Ok (_price_for_rented_machine (current_price m) market)
  else _price_for_idle_machine config (current_price m) market m.
Proof. intro H. unfold calculate_price. now rewrite H. Qed.

(** ** The rented branch *)

(** C1.  A rented machine is held at its current price, whatever the
    market snapshot says: on every snapshot that satisfies the data-model
    invariant, and so on every snapshot [get_market_data] builds,
    [calculate_price] returns HOLD with the unmodified current price. *)
Theorem rented_machine_is_held (config : PricingConfig) (m : Machine) :
  is_rented m = true ->
  (forall market, snapshot_ok market = true ->
     calculate_price config m market =
     Ok (mkPriceDecision (current_price m) HOLD
           "Machine is RENTED - holding current price")) /\
  (forall offers,
     calculate_price config m (get_market_data offers) =
     Ok (mkPriceDecision (current_price m) HOLD
           "Machine is RENTED - holding current price")).
Proof.
  intro Hr.
  assert (G : forall market, snapshot_ok market = true ->
     calculate_price config m market =
     Ok (mkPriceDecision (current_price m) HOLD
           "Machine is RENTED - holding current price")).
  { intros market Hok. rewrite calculate_price_dispatch by assumption.
    now rewrite Hr. }
  split; [exact G|].
  intro offers. apply G, get_market_data_ok.
Qed.

Lemma rented_machine_is_held_witness :
  is_rented (machine 1.50 true true) = true /\
  calculate_price default_config (machine 1.50 true true)
    (get_market_data (Some verified_feed)) =
  Ok (mkPriceDecision 1.50 HOLD "Machine is RENTED - holding current price").
Proof.
  split; [reflexivity|].
  apply (proj2 (rented_machine_is_held default_config
                  (machine 1.50 true true) eq_refl)).
Defined.

(** ** The idle branch without a price signal *)

(** C4.  An idle machine facing a snapshot without overall median is
    decreased to [clamp(current_price * 0.9)], by the no-market-data rule
    and no other. *)
Theorem idle_without_median_decreases (config : PricingConfig) (m : Machine)
    (market : MarketData) :
  is_rented m = false ->
  median_price market = None ->
  calculate_price config m market =
  Ok (mkPriceDecision (_clamp_price config (current_price m * 0.9)) DECREASE
        "Machine IDLE + no market data - decreasing to attract customers").
Proof.
  intros Hr Hmed.
  rewrite calculate_price_no_median by (now rewrite Hmed).
  rewrite Hr. unfold _price_for_idle_machine. now rewrite Hmed.
Qed.

Lemma idle_without_median_decreases_witness :
  is_rented (machine 1.50 false true) = false /\
  median_price (get_market_data (Some [])) = None /\
  calculate_price default_config (machine 1.50 false true)
    (get_market_data (Some [])) =
  Ok (mkPriceDecision 1.3500 DECREASE
        "Machine IDLE + no market data - decreasing to attract customers").
Proof.
  split; [reflexivity|]. split; [reflexivity|].
  apply (idle_without_median_decreases default_config
           (machine 1.50 false true) (get_market_data (Some []))
           eq_refl eq_refl).
Defined.

(** ** The idle branch with a price signal *)

Lemma min2_compat (x y c : Q) : x == y -> Py.min2 x c == Py.min2 y c.
Proof.
  intro H. unfold Py.min2, Py.ltb. rewrite H.
  now destruct (Qle_bool y c).
Qed.

Lemma max2_compat (c x y : Q) : x == y -> Py.max2 c x == Py.max2 c y.
Proof.
  intro H. unfold Py.max2, Py.gtb, Py.ltb. rewrite H.
  destruct (Qle_bool y c); [reflexivity|assumption].
Qed.

(** Equal prices clamp to the same value. *)
Lemma clamp_compat (config : PricingConfig) (x y : Q) :
  x == y -> _clamp_price config x = _clamp_price config y.
Proof.
  intro H. unfold _clamp_price. apply round_compat.
  now apply max2_compat, min2_compat.
Qed.

Lemma idle_above_median (config : PricingConfig) (m : Machine)
    (market : MarketData) (median : Q) :
  median_price market = Some median ->
  ~ median == 0 ->
  median < current_price m ->
  _price_for_idle_machine config (current_price m) market m =
  Ok (mkPriceDecision
        (_clamp_price config (median * (if verified m then 0.95 else 0.90)))
        DECREASE (above_median_reason (verified m))).
Proof.
  intros Hmed Hnz Hlt. unfold _price_for_idle_machine.
  rewrite Hmed, (proj2 (truthy_Some median) Hnz). cbn [negb py_gt bind].
  rewrite (proj2 (gtb_true (current_price m) median) Hlt).
  cbn [py_mul bind]. now destruct (verified m).
Qed.

(** C2, amended.  An idle machine priced strictly above a present and
    non-zero overall median is decreased to [clamp(median * m)], where [m]
    is 0.95 for a verified machine and 0.90 otherwise; so an unverified
    machine at 1.50 facing an overall median of 1.00 is decreased to
    [clamp(0.90)].  The snapshot is any record that satisfies the
    data-model invariant, as every built snapshot does
    ([get_market_data_ok]). *)
Theorem idle_above_median_decreases (config : PricingConfig) (m : Machine)
    (market : MarketData) (median : Q) :
  snapshot_ok market = true ->
  is_rented m = false ->
  median_price market = Some median ->
  ~ median == 0 ->
  median < current_price m ->
  calculate_price config m market =
  Ok (mkPriceDecision
        (_clamp_price config (median * (if verified m then 0.95 else 0.90)))
        DECREASE (above_median_reason (verified m))) /\
  (verified m = false -> current_price m == 1.50 -> median == 1.00 ->
   exists d, calculate_price config m market = Ok d /\
             action d = DECREASE /\
             new_price d = _clamp_price config 0.90).
Proof.
  intros Hok Hr Hmed Hnz Hlt.
  assert (E : calculate_price config m market =
              Ok (mkPriceDecision
                    (_clamp_price config
                       (median * (if verified m then 0.95 else 0.90)))
                    DECREASE (above_median_reason (verified m)))).
  { rewrite calculate_price_dispatch by assumption. rewrite Hr.
    now apply idle_above_median. }
  split; [exact E|].
  intros Hv _ H1. eexists. split; [exact E|]. split; [reflexivity|].
  cbn [new_price]. rewrite Hv. apply clamp_compat. rewrite H1. reflexivity.
Qed.

Lemma idle_above_median_decreases_witness :
  calculate_price default_config (machine 1.50 false false)
    (get_market_data (Some single_feed)) =
  Ok (mkPriceDecision 0.9000 DECREASE
        "Machine IDLE + priced above median - dropping to 90% of median").
Proof.
  apply (proj1 (idle_above_median_decreases default_config
                  (machine 1.50 false false)
                  (get_market_data (Some single_feed)) 1.0000
                  eq_refl eq_refl eq_refl
                  ltac:(discriminate) ltac:(reflexivity))).
Defined.

(** C2 as stated fails when the overall median is present but rounds to
    0.0: the machine at 1.50 is above that median, yet the new price is
    [clamp(1.50 * 0.9) = 1.35] and not [clamp(0.0 * 0.90) = 0.50]. *)
Lemma idle_above_zero_median_counterexample :
  let market := get_market_data (Some dust_feed) in
  let m := machine 1.50 false false in
  is_rented m = false /\
  median_price market = Some 0.0000 /\
  0.0000 < current_price m /\
  calculate_price default_config m market =
  Ok (mkPriceDecision 1.3500 DECREASE
        "Machine IDLE + no market data - decreasing to attract customers") /\
  _clamp_price default_config (0.0000 * 0.90) = 0.5000 /\
  ~ 1.3500 == 0.5000.
Proof.
  cbv zeta. repeat split; try reflexivity. discriminate.
Qed.

(** With the reference minimum strictly below the current price, the
    target [reference_min * 0.92] is always more than 5% away from the
    current price: the test of the dead-band never fails. *)
Lemma dead_band_never_met (rmin current : Q) :
  rmin < current -> current * 0.05 < Qabs (rmin * 0.92 - current).
Proof.
  intro H. apply Qabs_case; intros; lra.
Qed.

Lemma reference_min_nonneg (market : MarketData) (m : Machine) (rmin : Q) :
  snapshot_ok market = true ->
  reference_min market m = Some rmin ->
  0 <= rmin.
Proof.
  unfold snapshot_ok, reference_min. intros Hok Href.
  apply andb_prop in Hok as [Hok Hv]. apply andb_prop in Hok as [_ Hm].
  destruct (verified m && Py.truthy (min_verified_price market));
    [rewrite Href in Hv|rewrite Href in Hm]; now apply Qle_bool_iff.
Qed.

Lemma idle_between (config : PricingConfig) (m : Machine)
    (market : MarketData) (median rmin : Q) :
  median_price market = Some median ->
  ~ median == 0 ->
  reference_min market m = Some rmin ->
  current_price m <= median ->
  rmin < current_price m ->
  _price_for_idle_machine config (current_price m) market m =
  if Py.gtb (Qabs (rmin * 0.92 - current_price m)) (current_price m * 0.05)
  then Ok (mkPriceDecision (_clamp_price config (rmin * 0.92)) DECREASE
             "Machine IDLE - pricing near market minimum to attract customers")
  else Ok (mkPriceDecision (current_price m) HOLD
             "Machine IDLE but already at/below market minimum - holding price").
Proof.
  intros Hmed Hnz Href Hle Hlt. unfold _price_for_idle_machine.
  rewrite Hmed, (proj2 (truthy_Some median) Hnz), Href.
  cbn [negb py_gt bind].
  rewrite (proj2 (gtb_false (current_price m) median) Hle).
  rewrite (proj2 (gtb_true (current_price m) rmin) Hlt).
  reflexivity.
Qed.

(** C3 as stated fails when its reference minimum is read as the claims
    define it, the minimum of the machine's own tier.  The unverified
    machine at 1.00 faces an overall median of 1.20 and an unverified
    minimum of 0.80; the move to [0.80 * 0.92] exceeds 5%, so the claim
    predicts a DECREASE to [clamp(0.736) = 0.7360].  The code compares
    with the overall minimum 0.50 and decreases to
    [clamp(0.46) = 0.5000]. *)
Lemma tier_minimum_move_counterexample :
  let market := get_market_data (Some tier_feed) in
  let m := machine 1.00 false false in
  is_rented m = false /\
  median_price market = Some 1.2000 /\
  current_price m <= 1.2000 /\
  reference_min_spec market m = Some 0.8000 /\
  0.8000 < current_price m /\
  current_price m * 0.05 < Qabs (0.8000 * 0.92 - current_price m) /\
  _clamp_price default_config (0.8000 * 0.92) = 0.7360 /\
  calculate_price default_config m market =
  Ok (mkPriceDecision 0.5000 DECREASE
        "Machine IDLE - pricing near market minimum to attract customers") /\
  ~ 0.5000 == 0.7360.
Proof.
  cbv zeta. repeat split; try reflexivity; discriminate.
Qed.

(** C3, amended.  An idle machine at or below the present overall median
    and strictly above the reference minimum the code uses (the verified
    minimum for a verified machine when present and non-zero, the
    overall minimum otherwise: [reference_min]) is decreased to
    [clamp(reference_min * 0.92)].  The move to [reference_min * 0.92]
    always exceeds 5% of the current price, so the dead-band never
    suppresses the change.  The snapshot is any record that satisfies
    the data-model invariant, as every built snapshot does
    ([get_market_data_ok]). *)
Theorem idle_above_reference_min_decreases (config : PricingConfig)
    (m : Machine) (market : MarketData) (median rmin : Q) :
  snapshot_ok market = true ->
  is_rented m = false ->
  median_price market = Some median ->
  reference_min market m = Some rmin ->
  current_price m <= median ->
  rmin < current_price m ->
  current_price m * 0.05 < Qabs (rmin * 0.92 - current_price m) /\
  calculate_price config m market =
  Ok (mkPriceDecision (_clamp_price config (rmin * 0.92)) DECREASE
        "Machine IDLE - pricing near market minimum to attract customers").
Proof.
  intros Hok Hr Hmed Href Hle Hlt.
  pose proof (dead_band_never_met _ _ Hlt) as Hmove.
  split; [exact Hmove|].
  assert (Hnz : ~ median == 0).
  { intro Hz. pose proof (reference_min_nonneg _ _ _ Hok Href). lra. }
  rewrite calculate_price_dispatch by assumption. rewrite Hr.
  rewrite (idle_between config m market median rmin) by assumption.
  now rewrite (proj2 (gtb_true _ _) Hmove).
Qed.

Lemma idle_above_reference_min_decreases_witness :
  calculate_price default_config (machine 1.00 false true)
    (get_market_data (Some verified_feed)) =
  Ok (mkPriceDecision 0.7360 DECREASE
        "Machine IDLE - pricing near market minimum to attract customers").
Proof.
  apply (proj2 (idle_above_reference_min_decreases default_config
                  (machine 1.00 false true)
                  (get_market_data (Some verified_feed)) 1.2000 0.8000
                  eq_refl eq_refl eq_refl eq_refl
                  ltac:(discriminate) ltac:(reflexivity))).
Defined.

(** ** Actions *)

Lemma idle_action (config : PricingConfig) (current : Q)
    (market : MarketData) (m : Machine) (d : PriceDecision) :
  _price_for_idle_machine config current market m = Ok d ->
  action d = HOLD \/ action d = DECREASE.
Proof.
  unfold _price_for_idle_machine.
  destruct (Py.truthy (median_price market)); cbn [negb].
  - destruct (median_price market) as [median|]; cbn [py_gt py_mul bind];
      [|discriminate].
    destruct (Py.gtb current median).
    + intros [= <-]. now right.
    + destruct (reference_min market m) as [rmin|]; cbn [py_gt py_mul bind];
        [|discriminate].
      destruct (Py.gtb current rmin); cbn [py_mul bind].
      * destruct (Py.gtb _ _); intros [= <-]; [now right|now left].
      * intros [= <-]. now left.
  - intros [= <-]. now right.
Qed.

Lemma idle_returns (config : PricingConfig) (current : Q)
    (market : MarketData) (m : Machine) :
  snapshot_ok market = true ->
  exists d, _price_for_idle_machine config current market m = Ok d.
Proof.
  intro Hok. unfold _price_for_idle_machine.
  destruct (Py.truthy (median_price market)) eqn:Hmed; cbn [negb];
    [|eexists; reflexivity].
  pose proof (snapshot_ok_min _ Hok Hmed) as Hmin.
  assert (Href : present (reference_min market m) = true).
  { unfold reference_min.
    destruct (verified m && Py.truthy (min_verified_price market)) eqn:E;
      [|assumption].
    apply andb_prop in E as [_ E]. now apply truthy_present. }
  destruct (median_price market) as [median|]; [|discriminate].
  destruct (reference_min market m) as [rmin|]; [|discriminate].
  cbn [py_gt py_mul bind].
  destruct (Py.gtb current median); [eexists; reflexivity|].
  destruct (Py.gtb current rmin); cbn [py_mul bind];
    [destruct (Py.gtb _ _)|]; eexists; reflexivity.
Qed.

(** C9.  Whatever the machine, the snapshot and the configuration, a
    decision that [calculate_price] returns carries HOLD or DECREASE, never
    INCREASE; and on every snapshot that satisfies the data-model
    invariant it does return a decision. *)
Theorem action_is_hold_or_decrease (config : PricingConfig) (m : Machine)
    (market : MarketData) :
  (forall d, calculate_price config m market = Ok d ->
             action d = HOLD \/ action d = DECREASE) /\
  (snapshot_ok market = true ->
   exists d, calculate_price config m market = Ok d).
Proof.
  split.
  - intro d. unfold calculate_price.
    destruct (if Py.truthy (median_price market) then _ else _);
      cbn [bind]; [|discriminate].
    destruct (is_rented m).
    + intros [= <-]. now left.
    + apply idle_action.
  - intro Hok. rewrite calculate_price_dispatch by assumption.
    destruct (is_rented m); [eexists; reflexivity|now apply idle_returns].
Qed.

Lemma action_is_hold_or_decrease_witness :
  exists d,
    calculate_price default_config (machine 0.70 false false)
      (get_market_data (Some mixed_feed)) = Ok d /\
    (action d = HOLD \/ action d = DECREASE).
Proof.
  destruct (action_is_hold_or_decrease default_config
              (machine 0.70 false false)
              (get_market_data (Some mixed_feed))) as [Hact Hret].
  destruct (Hret eq_refl) as [d Hd].
  exists d. split; [exact Hd|exact (Hact d Hd)].
Defined.

(** ** A median that rounds to zero *)

(** C10.  A present overall median equal to 0.0 is treated like a missing
    one: the idle machine is decreased to [clamp(current_price * 0.9)] by
    the no-market-data rule.  Such a median arises from positive prices:
    a feed whose only eligible price is 0.00001 has median [Some 0.0000],
    and the machine at 1.50 is then decreased to 1.35 rather than compared
    with that median. *)
Theorem zero_median_is_no_signal :
  (forall config m market median,
     is_rented m = false ->
     median_price market = Some median ->
     median == 0 ->
     calculate_price config m market =
     Ok (mkPriceDecision (_clamp_price config (current_price m * 0.9))
           DECREASE
           "Machine IDLE + no market data - decreasing to attract customers")) /\
  (let market := get_market_data (Some dust_feed) in
   let m := machine 1.50 false false in
   available_prices dust_feed = [0.00001] /\
   0 < 0.00001 /\ 0.00001 < 0.00005 /\
   median_price market = Some 0.0000 /\
   median_price market <> None /\
   calculate_price default_config m market =
   Ok (mkPriceDecision 1.3500 DECREASE
         "Machine IDLE + no market data - decreasing to attract customers")).
Proof.
  split.
  - intros config m market median Hr Hmed Hz.
    assert (Hf : Py.truthy (median_price market) = false)
      by (rewrite Hmed; now apply truthy_Some_false).
    rewrite calculate_price_no_median by assumption.
    rewrite Hr. unfold _price_for_idle_machine. now rewrite Hf.
  - cbv zeta. repeat split; try reflexivity. discriminate.
Qed.

Lemma zero_median_is_no_signal_witness :
  calculate_price default_config (machine 1.50 false false)
    (get_market_data (Some dust_feed)) =
  Ok (mkPriceDecision 1.3500 DECREASE
        "Machine IDLE + no market data - decreasing to attract customers").
Proof.
  apply (proj1 zero_median_is_no_signal default_config
           (machine 1.50 false false) (get_market_data (Some dust_feed))
           0.0000 eq_refl eq_refl).
  reflexivity.
Defined.

(** ** The reference minimum *)

Lemma idle_at_or_below_min (config : PricingConfig) (m : Machine)
    (market : MarketData) (median rmin : Q) :
  median_price market = Some median ->
  ~ median == 0 ->
  reference_min market m = Some rmin ->
  current_price m <= median ->
  current_price m <= rmin ->
  _price_for_idle_machine config (current_price m) market m =
  Ok (mkPriceDecision (current_price m) HOLD
        "Machine IDLE but already at/below market minimum - holding price").
Proof.
  intros Hmed Hnz Href Hle Hmin. unfold _price_for_idle_machine.
  rewrite Hmed, (proj2 (truthy_Some median) Hnz), Href.
  cbn [negb py_gt bind].
  rewrite (proj2 (gtb_false (current_price m) median) Hle).
  rewrite (proj2 (gtb_false (current_price m) rmin) Hmin).
  reflexivity.
Qed.

(** C5 as stated fails for an unverified machine: with a verified offer
    at 0.50 and an unverified one at 0.80, the unverified-tier minimum is
    present (0.80), yet the code compares against the overall minimum
    0.50, and the machine at 0.70 is decreased where a reference of 0.80
    would hold it. *)
Lemma reference_min_tier_counterexample :
  let market := get_market_data (Some mixed_feed) in
  let m := machine 0.70 false false in
  verified m = false /\
  unverified_min_price market = Some 0.8000 /\
  reference_min_spec market m = Some 0.8000 /\
  reference_min market m = Some 0.5000 /\
  reference_min market m <> reference_min_spec market m /\
  calculate_price default_config m market =
  Ok (mkPriceDecision 0.5000 DECREASE
        "Machine IDLE - pricing near market minimum to attract customers").
Proof.
  cbv zeta. repeat split; try reflexivity. discriminate.
Qed.

(** C5, amended.  The reference minimum is the verified-available minimum
    when the machine is verified and that minimum is present and non-zero,
    and the overall-available minimum in every other case: always, for an
    unverified machine.  Rules (c) and (d) compare the current price of an
    idle machine with this value: above it the machine is decreased to
    [clamp(reference_min * 0.92)], at or below it the machine is held. *)
Theorem reference_min_by_tier (market : MarketData) (m : Machine) :
  (forall v, verified m = true -> min_verified_price market = Some v ->
             ~ v == 0 -> reference_min market m = Some v) /\
  (verified m = true ->
   min_verified_price market = None \/
   (exists v, min_verified_price market = Some v /\ v == 0) ->
   reference_min market m = min_price market) /\
  (verified m = false -> reference_min market m = min_price market) /\
  (forall config median rmin,
     snapshot_ok market = true ->
     is_rented m = false ->
     median_price market = Some median -> ~ median == 0 ->
     current_price m <= median ->
     reference_min market m = Some rmin ->
     calculate_price config m market =
     if Py.gtb (current_price m) rmin
     then Ok (mkPriceDecision (_clamp_price config (rmin * 0.92)) DECREASE
                "Machine IDLE - pricing near market minimum to attract customers")
     else Ok (mkPriceDecision (current_price m) HOLD
                "Machine IDLE but already at/below market minimum - holding price")).
Proof.
  unfold reference_min at 1 2 3. repeat split.
  - intros v Hv Hmin Hnz.
    now rewrite Hv, Hmin, (proj2 (truthy_Some v) Hnz).
  - intros Hv [Hmin|(v & Hmin & Hz)]; rewrite Hv, Hmin; [reflexivity|].
    now rewrite (proj2 (truthy_Some_false v) Hz).
  - now intros ->.
  - intros config median rmin Hok Hr Hmed Hnz Hle Href.
    rewrite calculate_price_dispatch by assumption. rewrite Hr.
    destruct (Py.gtb (current_price m) rmin) eqn:E.
    + apply gtb_true in E.
      rewrite (idle_between config m market median rmin) by assumption.
      now rewrite (proj2 (gtb_true _ _) (dead_band_never_met _ _ E)).
    + apply gtb_false in E. now apply idle_at_or_below_min with median rmin.
Qed.

Lemma reference_min_by_tier_witness :
  reference_min (get_market_data (Some mixed_feed)) (machine 0.70 false false)
  = Some 0.5000.
Proof.
  apply (proj1 (proj2 (proj2 (reference_min_by_tier
                                (get_market_data (Some mixed_feed))
                                (machine 0.70 false false)))) eq_refl).
Defined.

(** ** Clamp idempotence and bounds *)

Lemma idle_price_clamped (config : PricingConfig) (current : Q)
    (market : MarketData) (m : Machine) (d : PriceDecision) :
  _price_for_idle_machine config current market m = Ok d ->
  (action d <> HOLD -> exists target, new_price d = _clamp_price config target)
  /\ (action d = HOLD -> new_price d = current).
Proof.
  unfold _price_for_idle_machine.
  destruct (Py.truthy (median_price market)); cbn [negb].
  - destruct (median_price market) as [median|]; cbn [py_gt py_mul bind];
      [|discriminate].
    destruct (Py.gtb current median).
    + intros [= <-]. cbn. split; [eauto|discriminate].
    + destruct (reference_min market m) as [rmin|]; cbn [py_gt py_mul bind];
        [|discriminate].
      destruct (Py.gtb current rmin); cbn [py_mul bind].
      * destruct (Py.gtb _ _); intros [= <-]; cbn;
          (split; [eauto|discriminate]) || (split; [congruence|reflexivity]).
      * intros [= <-]. cbn. split; [congruence|reflexivity].
  - intros [= <-]. cbn. split; [eauto|discriminate].
Qed.

(** C7 as stated fails on the bounds.  A floor of 0.50004 is rounded away:
    the clamped price 0.5000 lies below it.  A floor above the ceiling
    leaves no interval: the clamped price is the rounded floor, above the
    ceiling. *)
Lemma clamp_outside_bounds_counterexample :
  _clamp_price fine_floor_config 0 = 0.5000 /\
  0.5000 < base_price fine_floor_config /\
  base_price fine_floor_config <= max_price fine_floor_config /\
  _clamp_price inverted_config 1 = 3.0000 /\
  max_price inverted_config < 3.0000.
Proof.
  repeat split; try reflexivity; discriminate.
Qed.

(** C7, amended.  For every price [x] and every configuration
    [clamp(clamp(x)) = clamp(x)], where [clamp(x)] is
    [round(max(floor_price, min(x, ceiling_price)), 4)].  When
    [floor_price <= ceiling_price], [clamp(x)] lies within the rounded
    bounds [[round(floor_price, 4), round(ceiling_price, 4)]], hence
    within [[floor_price, ceiling_price]] when both bounds are multiples
    of 0.0001.  Every decision other than HOLD carries a clamped price,
    and a HOLD decision carries the unmodified current price. *)
Theorem clamp_idempotent_and_bounded (config : PricingConfig) (x : Q) :
  _clamp_price config (_clamp_price config x) = _clamp_price config x /\
  _clamp_price config x =
    Py.round (Py.max2 (base_price config) (Py.min2 x (max_price config))) 4 /\
  (base_price config <= max_price config ->
   Py.round (base_price config) 4 <= _clamp_price config x /\
   _clamp_price config x <= Py.round (max_price config) 4) /\
  (base_price config <= max_price config ->
   Py.round (base_price config) 4 == base_price config ->
   Py.round (max_price config) 4 == max_price config ->
   base_price config <= _clamp_price config x /\
   _clamp_price config x <= max_price config) /\
  (forall m market d,
     calculate_price config m market = Ok d ->
     (action d <> HOLD ->
      exists target, new_price d = _clamp_price config target) /\
     (action d = HOLD -> new_price d = current_price m)).
Proof.
  split; [apply clamp_idem|]. split; [reflexivity|].
  split; [apply clamp_bounds|]. split.
  - intros Hle Hlo Hhi. destruct (clamp_bounds config x Hle) as [H1 H2].
    rewrite Hlo in H1. rewrite Hhi in H2. now split.
  - intros m market d. unfold calculate_price.
    destruct (if Py.truthy (median_price market) then _ else _);
      cbn [bind]; [|discriminate].
    destruct (is_rented m).
    + intros [= <-]. cbn. split; [congruence|reflexivity].
    + apply idle_price_clamped.
Qed.

Lemma clamp_idempotent_and_bounded_witness :
  base_price default_config <= _clamp_price default_config 2.71828 /\
  _clamp_price default_config 2.71828 <= max_price default_config.
Proof.
  apply (proj1 (proj2 (proj2 (proj2
           (clamp_idempotent_and_bounded default_config 2.71828))))).
  - discriminate.
  - reflexivity.
  - reflexivity.
Defined.

(** ** The statistics of a built snapshot *)

Lemma built_overall (offers : list Offer) :
  let market := get_market_data (Some offers) in
  (avg_price market, median_price market, min_price market) =
  match available_prices offers with
  | [] => (None, None, None)
  | p :: ps =>
      (Some (avg_of (p :: ps)), Some (median_of (p :: ps)),
       Some (min_of (p :: ps)))
  end.
Proof.
  cbv zeta. destruct offers as [|o offers]; [reflexivity|].
  unfold get_market_data.
  destruct (unverified_available_prices (o :: offers));
    destruct (available_prices (o :: offers)); reflexivity.
Qed.

Lemma built_unverified (offers : list Offer) :
  let market := get_market_data (Some offers) in
  (unverified_avg_price market, unverified_median_price market,
   unverified_min_price market) =
  match unverified_available_prices offers with
  | [] => (None, None, None)
  | p :: ps =>
      (Some (avg_of (p :: ps)), Some (median_of (p :: ps)),
       Some (min_of (p :: ps)))
  end.
Proof.
  cbv zeta. destruct offers as [|o offers]; [reflexivity|].
  unfold get_market_data.
  destruct (unverified_available_prices (o :: offers));
    destruct (available_prices (o :: offers)); reflexivity.
Qed.

Lemma built_verified (offers : list Offer) :
  min_verified_price (get_market_data (Some offers)) =
  match verified_available_prices offers with
  | [] => None
  | p :: ps => Some (Py.round (Py.min_list (p :: ps)) 4)
  end.
Proof.
  destruct offers as [|o offers]; [reflexivity|].
  unfold get_market_data.
  destruct (unverified_available_prices (o :: offers));
    destruct (available_prices (o :: offers)); reflexivity.
Qed.

(** C8.  A population without eligible price (no offer with
    [rented = false] and [price > 0]) has no statistic in the snapshot:
    average, median and minimum of the overall population are [None] when
    its eligible-price list is empty, likewise those of the unverified
    population and the minimum of the verified one; none of them is 0.0.
    The empty offer list, and a search that returned nothing, give a
    snapshot with every price statistic absent. *)
Theorem empty_population_is_absent (offers : list Offer) :
  let market := get_market_data (Some offers) in
  (available_prices offers = [] ->
   avg_price market = None /\ median_price market = None /\
   min_price market = None) /\
  (unverified_available_prices offers = [] ->
   unverified_avg_price market = None /\
   unverified_median_price market = None /\
   unverified_min_price market = None) /\
  (verified_available_prices offers = [] ->
   min_verified_price market = None) /\
  get_market_data (Some []) =
    mkMarketData None None None 0 0 0 None 0 None None None /\
  get_market_data None =
    mkMarketData None None None 0 0 0 None 0 None None None.
Proof.
  cbv zeta. repeat apply conj; try reflexivity.
  - intro E. pose proof (built_overall offers) as H. cbv zeta in H.
    rewrite E in H. injection H as H1 H2 H3.
    split; [exact H1|]. split; [exact H2|exact H3].
  - intro E. pose proof (built_unverified offers) as H. cbv zeta in H.
    rewrite E in H. injection H as H1 H2 H3.
    split; [exact H1|]. split; [exact H2|exact H3].
  - intro E. now rewrite built_verified, E.
Qed.

Lemma empty_population_is_absent_witness :
  let market := get_market_data (Some [rented_offer "unverified" 1.00]) in
  avg_price market = None /\ median_price market = None /\
  min_price market = None.
Proof.
  apply (proj1 (empty_population_is_absent [rented_offer "unverified" 1.00])).
  reflexivity.
Defined.

(** ** The median *)

Lemma ltb_compat_l (y y' x : Q) : y == y' -> Py.ltb y x = Py.ltb y' x.
Proof. intro H. unfold Py.ltb. now rewrite H. Qed.

Lemma ltb_asym (x y : Q) : Py.ltb x y = true -> Py.ltb y x = false.
Proof.
  intro H. apply (gtb_true y x) in H. apply (gtb_false x y).
  now apply Qlt_le_weak.
Qed.

Lemma ltb_total (x y : Q) :
  Py.ltb x y = false -> Py.ltb y x = false -> x == y.
Proof.
  intros H1 H2. apply (gtb_false y x) in H1. apply (gtb_false x y) in H2.
  now apply Qle_antisym.
Qed.

Lemma Forall2_Qeq_refl (l : list Q) : Forall2 Qeq l l.
Proof. induction l; constructor; [reflexivity|assumption]. Qed.

Lemma Forall2_Qeq_trans (l1 l2 l3 : list Q) :
  Forall2 Qeq l1 l2 -> Forall2 Qeq l2 l3 -> Forall2 Qeq l1 l3.
Proof.
  intro H. revert l3. induction H as [|a b l1 l2 Hab _ IH]; intros l3 H3.
  - assumption.
  - inversion H3 as [|b' c l2' l3' Hbc H3']; subst. constructor.
    + now rewrite Hab.
    + now apply IH.
Qed.

Lemma insert_compat (x : Q) (l1 l2 : list Q) :
  Forall2 Qeq l1 l2 -> Forall2 Qeq (Py.insert x l1) (Py.insert x l2).
Proof.
  induction 1 as [|a b l1 l2 Hab Hl IH]; simpl.
  - apply Forall2_Qeq_refl.
  - rewrite (ltb_compat_l a b x Hab). destruct (Py.ltb b x).
    + now constructor.
    + constructor; [reflexivity|now constructor].
Qed.

(** Inserting two prices in either order gives the same prices at the
    same places. *)
Lemma insert_swap (x y : Q) (l : list Q) :
  Forall2 Qeq (Py.insert x (Py.insert y l)) (Py.insert y (Py.insert x l)).
Proof.
  (* both prices go in front of [t] *)
  assert (Base : forall t,
            Py.insert x t = x :: t -> Py.insert y t = y :: t ->
            Forall2 Qeq (Py.insert x (y :: t)) (Py.insert y (x :: t))).
  { intros t Hx Hy. cbn [Py.insert]. rewrite Hx, Hy.
    destruct (Py.ltb y x) eqn:Eyx, (Py.ltb x y) eqn:Exy.
    - rewrite (ltb_asym _ _ Eyx) in Exy. discriminate.
    - apply Forall2_Qeq_refl.
    - apply Forall2_Qeq_refl.
    - pose proof (ltb_total _ _ Exy Eyx) as E.
      constructor; [exact E|]. constructor; [now symmetry|].
      apply Forall2_Qeq_refl. }
  induction l as [|z l IH].
  - apply (Base []); reflexivity.
  - cbn [Py.insert].
    destruct (Py.ltb z y) eqn:Ezy, (Py.ltb z x) eqn:Ezx; cbn [Py.insert].
    + rewrite Ezy, Ezx. constructor; [reflexivity|exact IH].
    + rewrite Ezx, Ezy.
      assert (Exy : Py.ltb x y = true).
      { apply (gtb_true y x). apply (gtb_true y z) in Ezy.
        apply (gtb_false x z) in Ezx. now apply Qle_lt_trans with z. }
      rewrite Exy. apply Forall2_Qeq_refl.
    + rewrite Ezy, Ezx.
      assert (Eyx : Py.ltb y x = true).
      { apply (gtb_true x y). apply (gtb_true x z) in Ezx.
        apply (gtb_false y z) in Ezy. now apply Qle_lt_trans with z. }
      rewrite Eyx. apply Forall2_Qeq_refl.
    + apply (Base (z :: l)); cbn [Py.insert]; [now rewrite Ezx|now rewrite Ezy].
Qed.

Lemma sort_perm_invariant (l1 l2 : list Q) :
  Permutation l1 l2 -> Forall2 Qeq (Py.sort l1) (Py.sort l2).
Proof.
  induction 1 as [|x l1 l2 _ IH|x y l|l1 l2 l3 _ IH1 _ IH2]; cbn [Py.sort].
  - constructor.
  - now apply insert_compat.
  - apply insert_swap.
  - now apply Forall2_Qeq_trans with (Py.sort l2).
Qed.

Lemma sort_of_sorted (l : list Q) : Sorted Qle l -> Py.sort l = l.
Proof.
  induction 1 as [|x l _ IH Hhd]; cbn [Py.sort]; [reflexivity|].
  rewrite IH. destruct Hhd as [|y l Hxy]; [reflexivity|].
  cbn [Py.insert]. change (Py.ltb y x) with (Py.gtb x y).
  now rewrite (proj2 (gtb_false x y) Hxy).
Qed.

(** The ascending order of a price list is unique up to equality of
    prices: [list.sort()] yields it. *)
Lemma sorted_perm_unique (prices sorted : list Q) :
  Sorted Qle sorted -> Permutation prices sorted ->
  Forall2 Qeq (Py.sort prices) sorted.
Proof.
  intros Hs Hp. rewrite <- (sort_of_sorted sorted Hs).
  now apply sort_perm_invariant.
Qed.

Lemma Forall2_Qeq_nth (l1 l2 : list Q) (i : nat) :
  Forall2 Qeq l1 l2 -> nth i l1 0 == nth i l2 0.
Proof.
  intro H. revert i. induction H as [|a b l1 l2 Hab _ IH]; intro i.
  - reflexivity.
  - destruct i; [exact Hab|apply IH].
Qed.

Lemma median_of_sorted (prices sorted : list Q) :
  Sorted Qle sorted -> Permutation prices sorted ->
  median_of prices = Py.round (nth (length prices / 2) sorted 0) 4.
Proof.
  intros Hs Hp. unfold median_of. rewrite sort_length.
  apply round_compat, Forall2_Qeq_nth. now apply sorted_perm_unique.
Qed.

(** C6.  The median of a non-empty eligible-price population of size [n]
    is the element at zero-based index [n / 2] (integer division) of the
    ascending order of its prices, rounded to 4 decimals: whatever list
    [sorted] is an ascending arrangement of the prices, the snapshot holds
    [round(sorted[n / 2], 4)], for the overall population and for the
    unverified one.  For [n = 5] that is the element at index 2, for even
    [n] the upper of the two middle elements. *)
Theorem median_is_upper_middle (offers : list Offer) :
  (forall sorted,
     available_prices offers <> [] ->
     Sorted Qle sorted ->
     Permutation (available_prices offers) sorted ->
     median_price (get_market_data (Some offers)) =
     Some (Py.round
             (nth (length (available_prices offers) / 2) sorted 0) 4)) /\
  (forall sorted,
     unverified_available_prices offers <> [] ->
     Sorted Qle sorted ->
     Permutation (unverified_available_prices offers) sorted ->
     unverified_median_price (get_market_data (Some offers)) =
     Some (Py.round
             (nth (length (unverified_available_prices offers) / 2) sorted 0)
             4)).
Proof.
  split; intros sorted Hne Hs Hp.
  - pose proof (built_overall offers) as H. cbv zeta in H.
    rewrite <- (median_of_sorted _ _ Hs Hp).
    destruct (available_prices offers); [congruence|].
    injection H as _ H _. exact H.
  - pose proof (built_unverified offers) as H. cbv zeta in H.
    rewrite <- (median_of_sorted _ _ Hs Hp).
    destruct (unverified_available_prices offers); [congruence|].
    injection H as _ H _. exact H.
Qed.

Lemma median_is_upper_middle_witness :
  length (available_prices five_feed) = 5%nat /\
  median_price (get_market_data (Some five_feed)) =
  Some (Py.round (nth 2 [0.50; 0.60; 0.70; 0.90; 1.10] 0) 4).
Proof.
  split; [reflexivity|].
  apply (proj1 (median_is_upper_middle five_feed)
           [0.50; 0.60; 0.70; 0.90; 1.10]).
  - discriminate.
  - repeat (constructor; try discriminate).
  - exact (sort_perm (available_prices five_feed)).
Defined.

(** Four prices 0.40, 0.60, 0.80, 1.00: the median is the upper middle
    price 0.80, not the mean 0.70 of the two middle prices. *)
Example median_of_four_prices :
  Py.sort (available_prices four_feed) = [0.40; 0.60; 0.80; 1.00] /\
  median_price (get_market_data (Some four_feed)) = Some 0.8000 /\
  ~ 0.8000 == (0.60 + 0.80) / 2.
Proof.
  repeat split; try reflexivity. discriminate.
Qed.

(** * Further properties of the snapshot builder *)

(** ** Closed form *)

Lemma built_snapshot (offers : list Offer) :
  get_market_data (Some offers) =
  mkMarketData
    (stat_of avg_of (available_prices offers))
    (stat_of median_of (available_prices offers))
    (stat_of min_of (available_prices offers))
    (length offers)
    (length (filter is_verified_offer offers))
    (avg_reliability_of offers)
    (stat_of rounded_min (verified_available_prices offers))
    (length (unverified_offers offers))
    (stat_of avg_of (unverified_available_prices offers))
    (stat_of median_of (unverified_available_prices offers))
    (stat_of min_of (unverified_available_prices offers)).
Proof.
  destruct offers as [|o offers]; [reflexivity|].
  unfold get_market_data, avg_reliability_of, stat_of, rounded_min.
  destruct (reliabilities (o :: offers));
    destruct (verified_available_prices (o :: offers));
    destruct (unverified_available_prices (o :: offers));
    destruct (available_prices (o :: offers)); reflexivity.
Qed.

(** ** Sums, minima and means *)

Lemma fold_Qplus_acc (l : list Q) (a : Q) :
  fold_left Qplus l a == a + fold_left Qplus l 0.
Proof.
  revert a. induction l as [|x l IH]; intro a; cbn [fold_left].
  - ring.
  - rewrite (IH (a + x)), (IH (0 + x)). ring.
Qed.

Lemma sum_cons (x : Q) (l : list Q) : Py.sum (x :: l) == x + Py.sum l.
Proof.
  unfold Py.sum. cbn [fold_left]. rewrite fold_Qplus_acc. ring.
Qed.

Lemma len_cons (x : Q) (l : list Q) : Py.len (x :: l) == 1 + Py.len l.
Proof.
  unfold Py.len. cbn [length]. rewrite Nat2Z.inj_succ, <- Z.add_1_l.
  rewrite inject_Z_plus. reflexivity.
Qed.

Lemma len_positive (x : Q) (l : list Q) : 0 < Py.len (x :: l).
Proof.
  unfold Py.len, Qlt. cbn [length inject_Z Qnum Qden]. lia.
Qed.

Lemma len_nonneg (l : list Q) : 0 <= Py.len l.
Proof. unfold Py.len, Qle. cbn [inject_Z Qnum Qden]. lia. Qed.

Lemma sum_lower (a : Q) (l : list Q) :
  Forall (fun p => a <= p) l -> a * Py.len l <= Py.sum l.
Proof.
  induction 1 as [|x l Hx _ IH].
  - change (Py.len []) with 0. change (Py.sum []) with 0.
    rewrite Qmult_0_r. apply Qle_refl.
  - rewrite sum_cons, len_cons, Qmult_plus_distr_r, Qmult_1_r.
    set (t := _ * Py.len l) in *. lra.
Qed.

Lemma sum_upper (b : Q) (l : list Q) :
  Forall (fun p => p <= b) l -> Py.sum l <= b * Py.len l.
Proof.
  induction 1 as [|x l Hx _ IH].
  - change (Py.len []) with 0. change (Py.sum []) with 0.
    rewrite Qmult_0_r. apply Qle_refl.
  - rewrite sum_cons, len_cons, Qmult_plus_distr_r, Qmult_1_r.
    set (t := _ * Py.len l) in *. lra.
Qed.

Lemma fold_min2_le (l : list Q) (a : Q) :
  fold_left Py.min2 l a <= a /\
  forall x, In x l -> fold_left Py.min2 l a <= x.
Proof.
  revert a. induction l as [|y l IH]; intro a; cbn [fold_left].
  - split; [apply Qle_refl|intros x []].
  - destruct (IH (Py.min2 a y)) as [H1 H2].
    assert (Ha : Py.min2 a y <= a /\ Py.min2 a y <= y).
    { destruct (min2_cases a y) as [[H ->]|[H ->]]; split;
        try apply Qle_refl; try assumption. now apply Qlt_le_weak. }
    split.
    + apply Qle_trans with (Py.min2 a y); tauto.
    + intros x [<-|Hx]; [|now apply H2].
      apply Qle_trans with (Py.min2 a y); tauto.
Qed.

(** [min(l)] is a lower bound of [l]. *)
Lemma min_list_le (l : list Q) (x : Q) : In x l -> Py.min_list l <= x.
Proof.
  destruct l as [|a l]; [intros []|]. cbn [Py.min_list].
  destruct (fold_min2_le l a) as [H1 H2].
  intros [<-|Hx]; [assumption|now apply H2].
Qed.

(** The minimum over more prices is not larger. *)
Lemma min_list_incl (l1 l2 : list Q) :
  l1 <> [] -> incl l1 l2 -> Py.min_list l2 <= Py.min_list l1.
Proof.
  intros Hne Hincl. destruct l1 as [|x l1]; [congruence|].
  apply min_list_le, Hincl, min_list_In.
Qed.

Lemma min_list_perm (l1 l2 : list Q) :
  Permutation l1 l2 -> Py.min_list l1 == Py.min_list l2.
Proof.
  intro Hp. destruct l1 as [|x l1].
  - apply Permutation_nil in Hp. subst. reflexivity.
  - assert (Hne2 : l2 <> [])
      by (intros ->; apply Permutation_sym, Permutation_nil in Hp;
          discriminate).
    apply Qle_antisym; apply min_list_incl; try assumption;
      try discriminate; intros p Hin.
    + eapply Permutation_in; [apply Permutation_sym|]; eassumption.
    + eapply Permutation_in; eassumption.
Qed.

Lemma mean_lower (a : Q) (l : list Q) :
  l <> [] -> Forall (fun p => a <= p) l -> a <= Py.sum l / Py.len l.
Proof.
  intros Hne Ha. destruct l as [|x l]; [congruence|].
  apply Qle_shift_div_l; [apply len_positive|now apply sum_lower].
Qed.

Lemma mean_upper (b : Q) (l : list Q) :
  l <> [] -> Forall (fun p => p <= b) l -> Py.sum l / Py.len l <= b.
Proof.
  intros Hne Hb. destruct l as [|x l]; [congruence|].
  apply Qle_shift_div_r; [apply len_positive|now apply sum_upper].
Qed.

(** ** Order of the offers *)

Lemma filter_perm {A : Type} (f : A -> bool) (l1 l2 : list A) :
  Permutation l1 l2 -> Permutation (filter f l1) (filter f l2).
Proof.
  induction 1 as [|x l1 l2 _ IH|x y l|l1 l2 l3 _ IH1 _ IH2]; cbn [filter].
  - constructor.
  - destruct (f x); [now constructor|assumption].
  - destruct (f x), (f y); try apply Permutation_refl. apply perm_swap.
  - now apply perm_trans with (filter f l2).
Qed.

Lemma map_perm {A B : Type} (f : A -> B) (l1 l2 : list A) :
  Permutation l1 l2 -> Permutation (map f l1) (map f l2).
Proof.
  induction 1 as [|x l1 l2 _ IH|x y l|l1 l2 l3 _ IH1 _ IH2]; cbn [map].
  - constructor.
  - now constructor.
  - apply perm_swap.
  - now apply perm_trans with (map f l2).
Qed.

Lemma sort_perm_perm (l1 l2 : list Q) :
  Permutation l1 l2 -> Permutation (Py.sort l1) (Py.sort l2).
Proof.
  intro H. apply perm_trans with l1; [apply Permutation_sym, sort_perm|].
  apply perm_trans with l2; [assumption|apply sort_perm].
Qed.

(** Lists that hold equal prices at equal places have equal sums. *)
Lemma sum_compat (l1 l2 : list Q) :
  Forall2 Qeq l1 l2 -> Py.sum l1 == Py.sum l2.
Proof.
  induction 1 as [|x y l1 l2 Hxy _ IH].
  - reflexivity.
  - now rewrite !sum_cons, Hxy, IH.
Qed.

(** The average is taken over the sorted prices, and the sorted prices
    do not depend on the order the prices came in. *)
Lemma avg_of_perm (l1 l2 : list Q) :
  Permutation l1 l2 -> avg_of l1 = avg_of l2.
Proof.
  intro H. unfold avg_of. apply round_compat.
  rewrite (sum_compat _ _ (sort_perm_invariant _ _ H)).
  unfold Py.len. now rewrite !sort_length, (Permutation_length H).
Qed.

Lemma min_of_perm (l1 l2 : list Q) :
  Permutation l1 l2 -> min_of l1 = min_of l2.
Proof.
  intro H. apply round_compat, min_list_perm. now apply sort_perm_perm.
Qed.

Lemma rounded_min_perm (l1 l2 : list Q) :
  Permutation l1 l2 -> rounded_min l1 = rounded_min l2.
Proof. intro H. now apply round_compat, min_list_perm. Qed.

Lemma median_of_perm (l1 l2 : list Q) :
  Permutation l1 l2 -> median_of l1 = median_of l2.
Proof.
  intro H. unfold median_of.
  rewrite !sort_length, (Permutation_length H).
  apply round_compat, Forall2_Qeq_nth. now apply sort_perm_invariant.
Qed.

Lemma stat_of_perm (f : list Q -> Q) (l1 l2 : list Q) :
  (Permutation l1 l2 -> f l1 = f l2) ->
  Permutation l1 l2 -> stat_of f l1 = stat_of f l2.
Proof.
  intros Hf Hp. destruct l1 as [|x l1], l2 as [|y l2].
  - reflexivity.
  - apply Permutation_nil in Hp. discriminate.
  - apply Permutation_sym, Permutation_nil in Hp. discriminate.
  - cbn [stat_of]. now rewrite Hf.
Qed.

(** X1.  The price statistics and the counts of a snapshot do not
    depend on the order in which the search returns the offers: two
    offer lists that are permutations of each other give the same
    average, median and minimum for the overall and for the unverified
    population, the same verified minimum and the same three counts.
    (Averages are taken after sorting.  The average reliability is
    summed in list order and is left out.) *)
Theorem snapshot_ignores_offer_order (offers1 offers2 : list Offer) :
  Permutation offers1 offers2 ->
  let market1 := get_market_data (Some offers1) in
  let market2 := get_market_data (Some offers2) in
  avg_price market1 = avg_price market2 /\
  median_price market1 = median_price market2 /\
  min_price market1 = min_price market2 /\
  min_verified_price market1 = min_verified_price market2 /\
  unverified_avg_price market1 = unverified_avg_price market2 /\
  unverified_median_price market1 = unverified_median_price market2 /\
  unverified_min_price market1 = unverified_min_price market2 /\
  available_count market1 = available_count market2 /\
  verified_count market1 = verified_count market2 /\
  unverified_count market1 = unverified_count market2.
Proof.
  intro H. cbv zeta. rewrite !built_snapshot.
  cbn [avg_price median_price min_price min_verified_price
       unverified_avg_price unverified_median_price unverified_min_price
       available_count verified_count unverified_count].
  assert (Ha : Permutation (available_prices offers1)
                 (available_prices offers2))
    by (unfold available_prices; now apply map_perm, filter_perm).
  assert (Hv : Permutation (verified_available_prices offers1)
                 (verified_available_prices offers2))
    by (unfold verified_available_prices; now apply map_perm, filter_perm).
  assert (Hu : Permutation (unverified_available_prices offers1)
                 (unverified_available_prices offers2))
    by (unfold unverified_available_prices, unverified_offers;
        now apply map_perm, filter_perm, filter_perm).
  rewrite (stat_of_perm avg_of _ _ (avg_of_perm _ _) Ha).
  rewrite (stat_of_perm median_of _ _ (median_of_perm _ _) Ha).
  rewrite (stat_of_perm min_of _ _ (min_of_perm _ _) Ha).
  rewrite (stat_of_perm rounded_min _ _ (rounded_min_perm _ _) Hv).
  rewrite (stat_of_perm avg_of _ _ (avg_of_perm _ _) Hu).
  rewrite (stat_of_perm median_of _ _ (median_of_perm _ _) Hu).
  rewrite (stat_of_perm min_of _ _ (min_of_perm _ _) Hu).
  rewrite (Permutation_length H).
  rewrite (Permutation_length (filter_perm is_verified_offer _ _ H)).
  unfold unverified_offers.
  rewrite (Permutation_length (filter_perm is_unverified_offer _ _ H)).
  repeat split.
Qed.

Lemma snapshot_ignores_offer_order_witness :
  let market1 :=
    get_market_data (Some [offer "verified" 0.50; offer "unverified" 0.80]) in
  let market2 :=
    get_market_data (Some [offer "unverified" 0.80; offer "verified" 0.50]) in
  avg_price market1 = avg_price market2 /\
  median_price market1 = median_price market2 /\
  min_price market1 = min_price market2 /\
  min_verified_price market1 = min_verified_price market2 /\
  unverified_avg_price market1 = unverified_avg_price market2 /\
  unverified_median_price market1 = unverified_median_price market2 /\
  unverified_min_price market1 = unverified_min_price market2 /\
  available_count market1 = available_count market2 /\
  verified_count market1 = verified_count market2 /\
  unverified_count market1 = unverified_count market2.
Proof.
  apply snapshot_ignores_offer_order. apply perm_swap.
Defined.

(** ** Order between the statistics *)

Lemma stat_of_Some (f : list Q -> Q) (l : list Q) (q : Q) :
  stat_of f l = Some q -> l <> [] /\ q = f l.
Proof.
  destruct l; [discriminate|]. cbn [stat_of]. intros [= <-].
  split; [discriminate|reflexivity].
Qed.

Lemma stat_of_nonempty (f : list Q -> Q) (l : list Q) :
  l <> [] -> stat_of f l = Some (f l).
Proof. destruct l; [congruence|reflexivity]. Qed.

Lemma min_of_le_median_of (l : list Q) : l <> [] -> min_of l <= median_of l.
Proof.
  intro Hne. apply round_mono, min_list_le, nth_In.
  apply Nat.div_lt; [|lia].
  destruct (Py.sort l) eqn:E; [now apply sort_nonempty in E|simpl; lia].
Qed.

(** X2.  In every snapshot the minimum of a population is at most its
    median: when the overall median is present, so is the overall
    minimum, with [min_price <= median_price]; likewise for the
    unverified population. *)
Theorem minimum_is_below_median (offers : option (list Offer))
    (median : Q) :
  let market := get_market_data offers in
  (median_price market = Some median ->
   exists minimum, min_price market = Some minimum /\ minimum <= median) /\
  (unverified_median_price market = Some median ->
   exists minimum,
     unverified_min_price market = Some minimum /\ minimum <= median).
Proof.
  cbv zeta. destruct offers as [offers|]; [|split; discriminate].
  rewrite built_snapshot.
  cbn [median_price min_price unverified_median_price unverified_min_price].
  split; intro H; apply stat_of_Some in H as [Hne ->];
    rewrite !stat_of_nonempty by assumption;
    eexists; (split; [reflexivity|]); now apply min_of_le_median_of.
Qed.

Lemma minimum_is_below_median_witness :
  exists minimum,
    min_price (get_market_data (Some five_feed)) = Some minimum /\
    minimum <= 0.7000.
Proof.
  apply (proj1 (minimum_is_below_median (Some five_feed) 0.7000)).
  reflexivity.
Defined.

Lemma verified_prices_incl (offers : list Offer) :
  incl (verified_available_prices offers) (available_prices offers).
Proof.
  intros p Hp. apply in_map_iff in Hp as (o & <- & Ho).
  apply filter_In in Ho as [Hin Ho]. apply andb_prop in Ho as [_ Ho].
  apply in_map, filter_In. now split.
Qed.

Lemma unverified_prices_incl (offers : list Offer) :
  incl (unverified_available_prices offers) (available_prices offers).
Proof.
  intros p Hp. apply in_map_iff in Hp as (o & <- & Ho).
  apply filter_In in Ho as [Hin Ho]. apply filter_In in Hin as [Hin _].
  apply in_map, filter_In. now split.
Qed.

Lemma incl_nonempty {A : Type} (l1 l2 : list A) :
  l1 <> [] -> incl l1 l2 -> l2 <> [].
Proof.
  intros Hne Hincl ->. destruct l1 as [|x l1]; [congruence|].
  exact (Hincl x (or_introl eq_refl)).
Qed.

Lemma incl_sort_r (l1 l2 : list Q) : incl l1 l2 -> incl l1 (Py.sort l2).
Proof.
  intros H p Hp. eapply Permutation_in; [apply sort_perm|]. now apply H.
Qed.

Lemma incl_sort_l (l1 l2 : list Q) : incl l1 l2 -> incl (Py.sort l1) l2.
Proof.
  intros H p Hp. apply H.
  eapply Permutation_in; [apply Permutation_sym, sort_perm|]. assumption.
Qed.

(** X3.  The overall minimum is the lowest minimum of a snapshot: when
    the verified minimum is present, the overall minimum is present and
    not above it, and the same holds for the unverified minimum. *)
Theorem overall_minimum_is_lowest (offers : option (list Offer))
    (tier_minimum : Q) :
  let market := get_market_data offers in
  min_verified_price market = Some tier_minimum \/
  unverified_min_price market = Some tier_minimum ->
  exists minimum, min_price market = Some minimum /\ minimum <= tier_minimum.
Proof.
  cbv zeta. destruct offers as [offers|]; [|intros [H|H]; discriminate].
  rewrite built_snapshot.
  cbn [min_verified_price unverified_min_price min_price].
  intros [H|H]; apply stat_of_Some in H as [Hne ->].
  - pose proof (verified_prices_incl offers) as Hincl.
    rewrite (stat_of_nonempty _ _ (incl_nonempty _ _ Hne Hincl)).
    eexists. split; [reflexivity|].
    apply round_mono, min_list_incl; [assumption|now apply incl_sort_r].
  - pose proof (unverified_prices_incl offers) as Hincl.
    rewrite (stat_of_nonempty _ _ (incl_nonempty _ _ Hne Hincl)).
    eexists. split; [reflexivity|].
    apply round_mono, min_list_incl; [now apply sort_nonempty|].
    now apply incl_sort_l, incl_sort_r.
Qed.

Lemma overall_minimum_is_lowest_witness :
  exists minimum,
    min_price (get_market_data (Some mixed_feed)) = Some minimum /\
    minimum <= 0.8000.
Proof.
  apply (overall_minimum_is_lowest (Some mixed_feed) 0.8000).
  right. reflexivity.
Defined.

(** ** Counts *)

Lemma tiers_disjoint (o : Offer) :
  is_verified_offer o = true -> is_unverified_offer o = false.
Proof.
  unfold is_verified_offer, is_unverified_offer.
  destruct (verification o) as [s|]; [|discriminate].
  intro H. apply String.eqb_eq in H. subst. reflexivity.
Qed.

(** X4.  The snapshot counts every offer of the list, rented and unpriced
    ones included, and each offer in at most one tier: [available_count]
    is the length of the list and [verified_count + unverified_count]
    does not exceed it. *)
Theorem tier_counts_are_disjoint (offers : list Offer) :
  let market := get_market_data (Some offers) in
  available_count market = length offers /\
  (verified_count market + unverified_count market
   <= available_count market)%nat.
Proof.
  cbv zeta. rewrite built_snapshot.
  cbn [available_count verified_count unverified_count].
  split; [reflexivity|]. unfold unverified_offers.
  induction offers as [|o offers IH]; cbn [filter length]; [lia|].
  destruct (is_verified_offer o) eqn:Ev.
  - rewrite (tiers_disjoint o Ev). cbn [length]. lia.
  - destruct (is_unverified_offer o); cbn [length]; lia.
Qed.

(** ** Offers that are rented or not priced *)

Lemma filter_both {A : Type} (f g : A -> bool) (l : list A) :
  (forall a, f a = true -> g a = true) ->
  filter f (filter g l) = filter f l.
Proof.
  intro H. induction l as [|a l IH]; cbn [filter]; [reflexivity|].
  destruct (g a) eqn:Eg; cbn [filter].
  - destruct (f a); now rewrite IH.
  - destruct (f a) eqn:Ef; [|assumption].
    apply H in Ef. congruence.
Qed.

Lemma filter_swap {A : Type} (f g : A -> bool) (l : list A) :
  filter f (filter g l) = filter g (filter f l).
Proof.
  induction l as [|a l IH]; cbn [filter]; [reflexivity|].
  destruct (f a) eqn:Ef, (g a) eqn:Eg; cbn [filter];
    rewrite ?Ef, ?Eg, IH; reflexivity.
Qed.

(** X5.  Offers that are rented, or whose price is missing or not
    positive, never move a price statistic: dropping them from the offer
    list leaves all seven price statistics of the snapshot unchanged. *)
Theorem unavailable_offers_do_not_move_prices (offers : list Offer) :
  let market := get_market_data (Some offers) in
  let market' := get_market_data (Some (filter is_available offers)) in
  avg_price market' = avg_price market /\
  median_price market' = median_price market /\
  min_price market' = min_price market /\
  min_verified_price market' = min_verified_price market /\
  unverified_avg_price market' = unverified_avg_price market /\
  unverified_median_price market' = unverified_median_price market /\
  unverified_min_price market' = unverified_min_price market.
Proof.
  cbv zeta. rewrite !built_snapshot.
  cbn [avg_price median_price min_price min_verified_price
       unverified_avg_price unverified_median_price unverified_min_price].
  assert (Ea : available_prices (filter is_available offers)
               = available_prices offers).
  { unfold available_prices. now rewrite filter_both. }
  assert (Ev : verified_available_prices (filter is_available offers)
               = verified_available_prices offers).
  { unfold verified_available_prices. rewrite filter_both; [reflexivity|].
    intros o H. now apply andb_prop in H. }
  assert (Eu : unverified_available_prices (filter is_available offers)
               = unverified_available_prices offers).
  { unfold unverified_available_prices, unverified_offers.
    rewrite (filter_swap is_unverified_offer is_available offers).
    now rewrite filter_both. }
  rewrite Ea, Ev, Eu. repeat split.
Qed.

(** ** Average reliability *)

(** X6.  The average reliability of a snapshot is a proportion whenever
    the offers' reliabilities are: if no offer reports a reliability
    above 1, then [0 <= avg_reliability <= 1] (offers without a positive
    reliability are left out of the mean, and the mean of none is 0). *)
Theorem avg_reliability_is_a_proportion (offers : list Offer) :
  (forall o, In o offers -> Py.get (reliability2 o) 0 <= 1) ->
  0 <= avg_reliability (get_market_data (Some offers)) /\
  avg_reliability (get_market_data (Some offers)) <= 1.
Proof.
  intro Hle. rewrite built_snapshot. cbn [avg_reliability].
  unfold avg_reliability_of.
  destruct (reliabilities offers) as [|r rs] eqn:E;
    [split; discriminate|].
  rewrite <- E.
  assert (Hne : reliabilities offers <> []) by (rewrite E; discriminate).
  assert (Hpos : Forall (fun p => 0 <= p) (reliabilities offers)).
  { apply Forall_forall. intros p Hp. unfold reliabilities in Hp.
    apply in_map_iff in Hp as (o & <- & Ho).
    apply filter_In in Ho as [_ Ho]. now apply Qlt_le_weak, gtb_true. }
  assert (Hone : Forall (fun p => p <= 1) (reliabilities offers)).
  { apply Forall_forall. intros p Hp. unfold reliabilities in Hp.
    apply in_map_iff in Hp as (o & <- & Ho).
    apply filter_In in Ho as [Ho _]. now apply Hle. }
  split.
  - apply round_nonneg. now apply mean_lower.
  - apply Qle_trans with (Py.round 1 2); [|discriminate].
    apply round_mono. now apply mean_upper.
Qed.

Lemma avg_reliability_is_a_proportion_witness :
  0 <= avg_reliability (get_market_data (Some mixed_feed)) /\
  avg_reliability (get_market_data (Some mixed_feed)) <= 1.
Proof.
  apply avg_reliability_is_a_proportion.
  intros o [<-|[<-|[]]]; discriminate.
Defined.

(** * Further properties of the decision engine *)

(** The four ways [_price_for_idle_machine] returns.  The dead-band HOLD
    is not among them: [dead_band_never_met]. *)
Lemma idle_decision_cases (config : PricingConfig) (current : Q)
    (market : MarketData) (m : Machine) (d : PriceDecision) :
  _price_for_idle_machine config current market m = Ok d ->
  (Py.truthy (median_price market) = false /\
   action d = DECREASE /\
   new_price d = _clamp_price config (current * 0.9)) \/
  (exists median,
     median_price market = Some median /\ ~ median == 0 /\
     median < current /\ action d = DECREASE /\
     new_price d =
       _clamp_price config (median * (if verified m then 0.95 else 0.90))) \/
  (exists median rmin,
     median_price market = Some median /\ ~ median == 0 /\
     current <= median /\ reference_min market m = Some rmin /\
     rmin < current /\ action d = DECREASE /\
     new_price d = _clamp_price config (rmin * 0.92)) \/
  (exists median rmin,
     median_price market = Some median /\ ~ median == 0 /\
     current <= median /\ reference_min market m = Some rmin /\
     current <= rmin /\ action d = HOLD /\ new_price d = current).
Proof.
  unfold _price_for_idle_machine.
  destruct (Py.truthy (median_price market)) eqn:Ht; cbn [negb].
  - destruct (median_price market) as [median|]; [|discriminate].
    apply truthy_Some in Ht. cbn [py_gt py_mul bind].
    destruct (Py.gtb current median) eqn:Em.
    + apply gtb_true in Em. intros [= <-]. right. left.
      exists median. cbn. repeat split; assumption.
    + apply gtb_false in Em.
      destruct (reference_min market m) as [rmin|]; cbn [py_gt py_mul bind];
        [|discriminate].
      destruct (Py.gtb current rmin) eqn:Er; cbn [py_mul bind].
      * apply gtb_true in Er.
        rewrite (proj2 (gtb_true _ _) (dead_band_never_met _ _ Er)).
        intros [= <-]. right. right. left.
        exists median, rmin. cbn. repeat split; assumption.
      * apply gtb_false in Er. intros [= <-]. right. right. right.
        exists median, rmin. cbn. repeat split; assumption.
  - intros [= <-]. left. cbn. repeat split.
Qed.

Lemma clamp_le (config : PricingConfig) (target current : Q) :
  base_price config <= current -> target <= current ->
  _clamp_price config target <= Py.round current 4.
Proof.
  intros Hf Ht. unfold _clamp_price. apply round_mono.
  destruct (max2_cases (base_price config)
              (Py.min2 target (max_price config))) as [[_ ->]|[_ ->]];
    [|assumption].
  destruct (min2_cases target (max_price config)) as [[H ->]|[_ ->]];
    [|assumption].
  apply Qlt_le_weak in H. now apply Qle_trans with target.
Qed.

Lemma median_nonneg (market : MarketData) (median : Q) :
  snapshot_ok market = true -> median_price market = Some median ->
  0 <= median.
Proof.
  unfold snapshot_ok. intros Hok Hmed.
  apply andb_prop in Hok as [Hok _]. apply andb_prop in Hok as [Hok _].
  apply andb_prop in Hok as [_ Hok]. rewrite Hmed in Hok.
  now apply Qle_bool_iff.
Qed.

(** X7.  A DECREASE never raises the price of a machine that is priced
    at or above the floor: for a non-negative current price not below
    [base_price], the new price of every DECREASE decision is at most the
    current price rounded to 4 decimals. *)
Theorem decrease_never_raises_price (config : PricingConfig) (m : Machine)
    (market : MarketData) (d : PriceDecision) :
  snapshot_ok market = true ->
  0 <= current_price m ->
  base_price config <= current_price m ->
  calculate_price config m market = Ok d ->
  action d = DECREASE ->
  new_price d <= Py.round (current_price m) 4.
Proof.
  intros Hok Hpos Hfloor Hd Hact.
  rewrite calculate_price_dispatch in Hd by assumption.
  destruct (is_rented m).
  - injection Hd as <-. discriminate.
  - apply idle_decision_cases in Hd
      as [(_ & _ & ->)
         |[(median & Hmed & _ & Hlt & _ & ->)
          |[(median & rmin & _ & _ & _ & Href & Hlt & _ & ->)
           |(_ & _ & _ & _ & _ & _ & _ & Hhold & _)]]].
    + apply clamp_le; [assumption|lra].
    + pose proof (median_nonneg _ _ Hok Hmed).
      apply clamp_le; [assumption|]. destruct (verified m); lra.
    + pose proof (reference_min_nonneg _ _ _ Hok Href).
      apply clamp_le; [assumption|lra].
    + congruence.
Qed.

Lemma decrease_never_raises_price_witness :
  let d := mkPriceDecision 0.7360 DECREASE
             "Machine IDLE - pricing near market minimum to attract customers" in
  calculate_price default_config (machine 1.00 false true)
    (get_market_data (Some verified_feed)) = Ok d /\
  new_price d <= Py.round 1.00 4.
Proof.
  cbv zeta. split; [reflexivity|].
  apply (decrease_never_raises_price default_config
           (machine 1.00 false true)
           (get_market_data (Some verified_feed))
           (mkPriceDecision 0.7360 DECREASE
              "Machine IDLE - pricing near market minimum to attract customers")).
  - reflexivity.
  - discriminate.
  - discriminate.
  - reflexivity.
  - reflexivity.
Defined.

(** Below the floor the same rule raises the price while calling it a
    decrease: an idle machine at 0.30 without market data is "decreased"
    to the floor 0.50. *)
Example decrease_below_floor_raises :
  calculate_price default_config (machine 0.30 false false)
    (get_market_data None) =
  Ok (mkPriceDecision 0.5000 DECREASE
        "Machine IDLE + no market data - decreasing to attract customers")
  /\ 0.30 < 0.5000.
Proof. split; reflexivity. Qed.

(** X8.  Without market data the floor absorbs: whenever 90% of the
    current price of an idle machine is at or below [base_price], the
    decision is DECREASE to the floor rounded to 4 decimals, so a machine
    that already sits at the floor gets a DECREASE that carries its own
    price, cycle after cycle. *)
Theorem floor_absorbs_without_market_data (config : PricingConfig)
    (m : Machine) (market : MarketData) :
  is_rented m = false ->
  median_price market = None ->
  current_price m * 0.9 <= base_price config ->
  calculate_price config m market =
  Ok (mkPriceDecision (Py.round (base_price config) 4) DECREASE
        "Machine IDLE + no market data - decreasing to attract customers").
Proof.
  intros Hr Hmed Hle.
  rewrite calculate_price_no_median by (now rewrite Hmed).
  rewrite Hr. unfold _price_for_idle_machine. rewrite Hmed. cbn [Py.truthy negb].
  unfold _clamp_price.
  destruct (max2_cases (base_price config)
              (Py.min2 (current_price m * 0.9) (max_price config)))
    as [[H _]|[_ ->]]; [exfalso|reflexivity].
  destruct (min2_cases (current_price m * 0.9) (max_price config))
    as [[H' E]|[_ E]]; rewrite E in H; lra.
Qed.

Lemma floor_absorbs_without_market_data_witness :
  calculate_price default_config (machine 0.50 false false)
    (get_market_data (Some [])) =
  Ok (mkPriceDecision 0.5000 DECREASE
        "Machine IDLE + no market data - decreasing to attract customers").
Proof.
  apply (floor_absorbs_without_market_data default_config
           (machine 0.50 false false) (get_market_data (Some []))
           eq_refl eq_refl).
  discriminate.
Defined.

(** X9.  Only three statistics and three machine attributes reach the
    decision: two snapshots that agree on the overall median, the overall
    minimum and the verified minimum, and two machines that agree on
    current price, rental status and verification, get the same decision.
    Average prices, counts, average reliability, the unverified-tier
    statistics and the machine's reliability, disk and network figures
    play no part. *)
Theorem decision_depends_on_three_statistics (config : PricingConfig)
    (m m' : Machine) (market market' : MarketData) :
  snapshot_ok market = true -> snapshot_ok market' = true ->
  median_price market = median_price market' ->
  min_price market = min_price market' ->
  min_verified_price market = min_verified_price market' ->
  current_price m = current_price m' ->
  is_rented m = is_rented m' ->
  verified m = verified m' ->
  calculate_price config m market = calculate_price config m' market'.
Proof.
  intros Hok Hok' Emed Emin Ever Ecur Erent Everif.
  rewrite !calculate_price_dispatch by assumption.
  unfold _price_for_rented_machine, _price_for_idle_machine, reference_min.
  now rewrite Emed, Emin, Ever, Ecur, Erent, Everif.
Qed.

Lemma decision_depends_on_three_statistics_witness :
  calculate_price default_config (machine 0.70 false false)
    (get_market_data (Some mixed_feed)) =
  calculate_price default_config
    (mkMachine 2 "RTX_5090" 1 0.70 false false 0.50 0 0 0)
    (get_market_data
       (Some (mixed_feed ++ [rented_offer "unverified" 0.10]))).
Proof.
  apply decision_depends_on_three_statistics; reflexivity.
Defined.

(** X10.  For a verified idle machine the position that is logged and
    the decision that is taken agree: with a usable overall median the
    position is never "Unknown"; "Above median" and "Competitive" come
    with a DECREASE and "Below market" with a HOLD. *)
Theorem logged_position_matches_decision (config : PricingConfig)
    (m : Machine) (market : MarketData) :
  snapshot_ok market = true ->
  Py.truthy (median_price market) = true ->
  verified m = true ->
  is_rented m = false ->
  exists position d,
    _get_price_position (current_price m) market true = Ok position /\
    calculate_price config m market = Ok d /\
    ((position = "Above median"%string /\ action d = DECREASE) \/
     (position = "Competitive"%string /\ action d = DECREASE) \/
     (position = "Below market"%string /\ action d = HOLD)).
Proof.
  intros Hok Hmed Hv Hr.
  rewrite calculate_price_dispatch by assumption. rewrite Hr.
  pose proof (snapshot_ok_min _ Hok Hmed) as Hmin.
  unfold _get_price_position, _price_for_idle_machine, reference_min.
  rewrite Hv, Hmed. cbn [negb andb].
  change (if Py.truthy (min_verified_price market)
          then min_verified_price market else min_price market)
    with (Py.or_else (min_verified_price market) (min_price market)).
  pose proof (or_else_present (min_verified_price market) _ Hmin) as Href.
  destruct (median_price market) as [median|]; [|discriminate].
  destruct (Py.or_else (min_verified_price market) (min_price market))
    as [rmin|]; [|discriminate].
  cbn [py_gt py_mul bind].
  destruct (Py.gtb (current_price m) median).
  - eexists. eexists. split; [reflexivity|]. split; [reflexivity|].
    left. split; reflexivity.
  - destruct (Py.gtb (current_price m) rmin) eqn:Er; cbn [py_mul bind].
    + apply gtb_true in Er.
      rewrite (proj2 (gtb_true _ _) (dead_band_never_met _ _ Er)).
      eexists. eexists. split; [reflexivity|]. split; [reflexivity|].
      right. left. split; reflexivity.
    + eexists. eexists. split; [reflexivity|]. split; [reflexivity|].
      right. right. split; reflexivity.
Qed.

Lemma logged_position_matches_decision_witness :
  exists position d,
    _get_price_position 1.00 (get_market_data (Some verified_feed)) true
      = Ok position /\
    calculate_price default_config (machine 1.00 false true)
      (get_market_data (Some verified_feed)) = Ok d /\
    ((position = "Above median"%string /\ action d = DECREASE) \/
     (position = "Competitive"%string /\ action d = DECREASE) \/
     (position = "Below market"%string /\ action d = HOLD)).
Proof.
  apply (logged_position_matches_decision default_config
           (machine 1.00 false true)
           (get_market_data (Some verified_feed)));
    reflexivity.
Defined.

(** For an unverified machine they can disagree: the position is taken
    against the unverified tier, the decision against the whole market.
    The machine at 0.70 is logged as "Below market" and decreased. *)
Example unverified_position_disagrees :
  let market := get_market_data (Some mixed_feed) in
  _get_price_position 0.70 market false = Ok "Below market"%string /\
  exists d,
    calculate_price default_config (machine 0.70 false false) market = Ok d
    /\ action d = DECREASE.
Proof.
  cbv zeta. split; [reflexivity|]. eexists. split; reflexivity.
Qed.

(** * The machine listing *)

Lemma str_replace_removes (old new : ascii) (s : string) :
  old <> new -> contains_char old (str_replace old new s) = false.
Proof.
  intro Hne. induction s as [|c s IH]; cbn [str_replace contains_char];
    [reflexivity|].
  rewrite IH, orb_false_r.
  destruct (Ascii.eqb c old) eqn:E; [|assumption].
  apply Ascii.eqb_neq. congruence.
Qed.

Lemma is_target_spec (config : PricingConfig) (entry : MachineData) :
  is_target config entry = true ->
  listed_gpu_name entry = target_gpu config /\
  raw_num_gpus entry = target_num_gpus config.
Proof.
  unfold is_target. intro H. apply andb_prop in H as [H1 H2].
  split; [now apply String.eqb_eq|now apply Z.eqb_eq].
Qed.

Lemma listed_machine_origin (config : PricingConfig)
    (response : option MachinesResponse) (m : Machine) :
  In m (get_my_machines config response) ->
  exists r entries entry,
    response = Some r /\ machines r = Some entries /\
    In entry entries /\ is_target config entry = true /\
    m = to_machine entry.
Proof.
  unfold get_my_machines. destruct response as [r|]; [|intros []].
  destruct (machines r) as [entries|] eqn:E; [|intros []].
  intro H. apply in_map_iff in H as (entry & <- & Hin).
  apply filter_In in Hin as [Hin Ht].
  exists r, entries, entry. repeat split; assumption.
Qed.

(** X11.  Every machine that [get_my_machines] returns is one of the
    target: its name, spaces replaced by underscores, is [target_gpu]
    and so holds no space, its GPU count is [target_num_gpus]; it is
    marked rented exactly when the listing reports running rentals. *)
Theorem listed_machines_are_targets (config : PricingConfig)
    (response : option MachinesResponse) (m : Machine) :
  In m (get_my_machines config response) ->
  gpu_name m = target_gpu config /\
  num_gpus m = target_num_gpus config /\
  contains_char " " (gpu_name m) = false /\
  exists entries entry,
    option_map machines response = Some (Some entries) /\
    In entry entries /\ id m = raw_id entry /\
    current_price m = raw_min_bid_price entry /\
    (is_rented m = true <-> (0 < raw_current_rentals_running entry)%Z).
Proof.
  intro H.
  apply listed_machine_origin in H
    as (r & entries & entry & -> & Hm & Hin & Ht & ->).
  apply is_target_spec in Ht as [Hname Hcount]. cbn [to_machine gpu_name
    num_gpus id current_price is_rented].
  split; [assumption|]. split; [assumption|]. split.
  - apply str_replace_removes. discriminate.
  - exists entries, entry. cbn [option_map]. rewrite Hm.
    repeat split; try reflexivity; try assumption; apply Z.ltb_lt.
Qed.

Lemma listed_machines_are_targets_witness :
  gpu_name (to_machine
              (mkMachineData 7 "RTX 5090" 1 1.00 0 (Some true) (Some 0.99)
                 None None None)) =
  target_gpu default_config.
Proof.
  apply (listed_machines_are_targets default_config
           (Some (mkMachinesResponse (Some sample_listing)))).
  left. reflexivity.
Defined.

(** X12.  A target name written with a space matches no machine: the
    listed names have their spaces replaced before the comparison, so
    with a space in [target_gpu] the machine list is empty whatever the
    marketplace answers. *)
Theorem spaced_target_matches_nothing (config : PricingConfig)
    (response : option MachinesResponse) :
  contains_char " " (target_gpu config) = true ->
  get_my_machines config response = [].
Proof.
  intro Hsp. destruct (get_my_machines config response) as [|m l] eqn:E;
    [reflexivity|exfalso].
  assert (Hin : In m (get_my_machines config response))
    by (rewrite E; now left).
  apply listed_machine_origin in Hin
    as (r & entries & entry & _ & _ & _ & Ht & _).
  apply is_target_spec in Ht as [Hname _].
  rewrite <- Hname in Hsp. unfold listed_gpu_name in Hsp.
  rewrite str_replace_removes in Hsp by discriminate. discriminate.
Qed.

Lemma spaced_target_matches_nothing_witness :
  get_my_machines spaced_target_config
    (Some (mkMachinesResponse (Some sample_listing))) = [].
Proof.
  apply spaced_target_matches_nothing. reflexivity.
Defined.

(** * The processing loop *)

Lemma calculate_price_returns (config : PricingConfig) (m : Machine)
    (market : MarketData) :
  snapshot_ok market = true ->
  exists d, calculate_price config m market = Ok d.
Proof.
  intro Hok. rewrite calculate_price_dispatch by assumption.
  destruct (is_rented m); [eexists; reflexivity|now apply idle_returns].
Qed.

(** A decision that asks for an update is for an idle machine and carries
    a clamped price. *)
Lemma update_is_clamped (config : PricingConfig) (m : Machine)
    (market : MarketData) (d : PriceDecision) :
  calculate_price config m market = Ok d ->
  action d <> HOLD ->
  is_rented m = false /\
  exists target, new_price d = _clamp_price config target.
Proof.
  unfold calculate_price.
  destruct (if Py.truthy (median_price market) then _ else _);
    cbn [bind]; [|discriminate].
  destruct (is_rented m).
  - intros [= <-] H. now contradiction H.
  - intros Hd Hact. split; [reflexivity|].
    now apply (idle_price_clamped config _ _ _ _ Hd).
Qed.

Section Loop.

Context {W : Type}.
Variable config : PricingConfig.
Variable cli : Cli W.

Lemma allowed_command_cons (m : Machine) (todo : list Machine) (c : Command) :
  allowed_command config todo c -> allowed_command config (m :: todo) c.
Proof.
  destruct c as [|q|i p]; cbn [allowed_command].
  - trivial.
  - intros (m' & Hin & Hq). exists m'. split; [now right|assumption].
  - intros (m' & t & Hin & H). exists m', t. split; [now right|assumption].
Qed.

Lemma update_machine_price_trace (i : Z) (p : Q) (s : Session W) :
  issued (snd (update_machine_price config cli i p s)) =
  issued s ++ (if test_mode config then [] else [SetMinBid i p]).
Proof.
  unfold update_machine_price. destruct (test_mode config).
  - cbn. now rewrite app_nil_r.
  - destruct (set_min_bid cli i p (world s)) as [[r|] w]; reflexivity.
Qed.

(** What one pass over [todo] does on well-formed answers:
    [calculate_price] does not raise, and what the pass issues is a search for each machine, in order, each followed by at
    most one new price, sent only outside test mode, only for an idle
    machine, and clamped. *)
Lemma process_each_trace (todo : list Machine) (s : Session W) :
  fst (process_each config cli todo s) = Ok tt /\
  exists delta,
    issued (snd (process_each config cli todo s)) = issued s ++ delta /\
    Forall (allowed_command config todo) delta /\
    (test_mode config = true ->
     Forall (fun c => is_set_min_bid c = false) delta) /\
    map (fun m => SearchOffers (search_query_for (gpu_name m) (num_gpus m)))
      todo = filter is_search_offers delta.
Proof.
  revert s. induction todo as [|m todo IH]; intro s; cbn [process_each].
  - split; [reflexivity|]. exists []. rewrite app_nil_r.
    repeat split; constructor.
  - unfold get_market_data_in.
    destruct (search_offers cli _ (world s)) as [offers w].
    set (q := search_query_for (gpu_name m) (num_gpus m)).
    set (s1 := mkSession w (issued s ++ [SearchOffers q])).
    destruct (calculate_price_returns config m (get_market_data offers)
                (get_market_data_ok offers)) as [d Hd].
    rewrite Hd.
    assert (Hq : allowed_command config (m :: todo) (SearchOffers q))
      by (exists m; split; [now left|reflexivity]).
    assert (Hold : forall s2 extra,
              issued s2 = issued s1 ++ extra ->
              Forall (allowed_command config (m :: todo)) extra ->
              (test_mode config = true ->
               Forall (fun c => is_set_min_bid c = false) extra) ->
              filter is_search_offers extra = [] ->
              fst (process_each config cli todo s2) = Ok tt /\
              exists delta,
                issued (snd (process_each config cli todo s2))
                = issued s ++ delta /\
                Forall (allowed_command config (m :: todo)) delta /\
                (test_mode config = true ->
                 Forall (fun c => is_set_min_bid c = false) delta) /\
                SearchOffers q ::
                map (fun m => SearchOffers
                                (search_query_for (gpu_name m) (num_gpus m)))
                  todo = filter is_search_offers delta).
    { intros s2 extra Hs2 Hall Htest Hnone.
      destruct (IH s2) as [Hok (delta & Hiss & Hd1 & Hd2 & Hd3)].
      split; [assumption|].
      exists (SearchOffers q :: extra ++ delta).
      rewrite Hiss, Hs2. unfold s1. cbn [issued].
      rewrite <- !app_assoc. cbn [app]. split; [reflexivity|]. split.
      - constructor; [assumption|]. apply Forall_app. split; [assumption|].
        eapply Forall_impl; [|exact Hd1]. apply allowed_command_cons.
      - split.
        + intro Ht. constructor; [reflexivity|]. apply Forall_app. auto.
        + cbn [filter is_search_offers]. rewrite filter_app, Hnone.
          cbn [app]. now rewrite Hd3. }
    destruct (action d) eqn:Ea.
    + destruct (update_machine_price config cli (id m) (new_price d) s1)
        as [b s2] eqn:Eu.
      pose proof (update_machine_price_trace (id m) (new_price d) s1) as Ht.
      rewrite Eu in Ht. cbn [snd] in Ht.
      destruct (update_is_clamped config m _ d Hd) as [Hr [t Hp]];
        [congruence|].
      apply (Hold s2 _ Ht).
      * destruct (test_mode config); constructor; [|constructor].
        exists m, t. repeat split; [now left|assumption|assumption].
      * intro Htm. rewrite Htm. constructor.
      * now destruct (test_mode config).
    + destruct (update_machine_price config cli (id m) (new_price d) s1)
        as [b s2] eqn:Eu.
      pose proof (update_machine_price_trace (id m) (new_price d) s1) as Ht.
      rewrite Eu in Ht. cbn [snd] in Ht.
      destruct (update_is_clamped config m _ d Hd) as [Hr [t Hp]];
        [congruence|].
      apply (Hold s2 _ Ht).
      * destruct (test_mode config); constructor; [|constructor].
        exists m, t. repeat split; [now left|assumption|assumption].
      * intro Htm. rewrite Htm. constructor.
      * now destruct (test_mode config).
    + apply (Hold s1 []).
      * now rewrite app_nil_r.
      * constructor.
      * intros _. constructor.
      * reflexivity.
Qed.

End Loop.

Lemma process_machines_trace {W : Type} (config : PricingConfig)
    (cli : Cli W) (s : Session W) :
  let listed := get_my_machines config (fst (show_machines cli (world s))) in
  fst (process_machines config cli s) = Ok tt /\
  exists delta,
    issued (snd (process_machines config cli s))
    = issued s ++ ShowMachines :: delta /\
    Forall (allowed_command config listed) delta /\
    (test_mode config = true ->
     Forall (fun c => is_set_min_bid c = false) delta) /\
    map (fun m => SearchOffers (search_query_for (gpu_name m) (num_gpus m)))
      listed = filter is_search_offers delta.
Proof.
  cbv zeta. unfold process_machines, get_my_machines_in.
  destruct (show_machines cli (world s)) as [response w]. cbn [fst].
  set (s0 := mkSession w (issued s ++ [ShowMachines])).
  destruct (process_each_trace config cli (get_my_machines config response) s0)
    as [Hok (delta & Hiss & Hrest)].
  assert (E : (let '(machines, s1) := (get_my_machines config response, s0) in
               match machines with
               | [] => (Ok tt, s1)
               | _ :: _ => process_each config cli machines s1
               end)
              = process_each config cli (get_my_machines config response) s0)
    by (now destruct (get_my_machines config response)).
  rewrite E. split; [assumption|].
  exists delta. split; [|assumption].
  rewrite Hiss. unfold s0. cbn [issued]. now rewrite <- app_assoc.
Qed.

(** X14.  In test mode no price is ever set: a round of
    [process_machines] issues no [set min-bid] command, whatever the
    decisions are. *)
Theorem test_mode_sets_no_price {W : Type} (config : PricingConfig)
    (cli : Cli W) (s : Session W) :
  test_mode config = true ->
  filter is_set_min_bid (issued (snd (process_machines config cli s))) =
  filter is_set_min_bid (issued s).
Proof.
  intro Ht.
  destruct (process_machines_trace config cli s)
    as [_ (delta & -> & _ & Hno & _)].
  rewrite filter_app. cbn [filter is_set_min_bid].
  specialize (Hno Ht).
  assert (E : filter is_set_min_bid delta = []).
  { induction Hno as [|c l Hc _ IH]; cbn [filter]; [reflexivity|].
    now rewrite Hc. }
  rewrite E. apply app_nil_r.
Qed.

Lemma test_mode_sets_no_price_witness :
  filter is_set_min_bid
    (issued (snd (process_machines test_config sample_cli (mkSession tt []))))
  = [].
Proof.
  apply (test_mode_sets_no_price test_config sample_cli (mkSession tt [])).
  reflexivity.
Defined.

(** X15.  Every price a round of [process_machines] sends to the
    marketplace is for a listed machine that is not rented, and lies
    within the configured bounds rounded to 4 decimals (given a floor not
    above the ceiling); nothing is sent in test mode. *)
Theorem prices_sent_are_bounded {W : Type} (config : PricingConfig)
    (cli : Cli W) (s : Session W) (i : Z) (p : Q) :
  In (SetMinBid i p) (issued (snd (process_machines config cli s))) ->
  In (SetMinBid i p) (issued s) \/
  (test_mode config = false /\
   (exists m,
      In m (get_my_machines config (fst (show_machines cli (world s)))) /\
      id m = i /\ is_rented m = false) /\
   (base_price config <= max_price config ->
    Py.round (base_price config) 4 <= p /\
    p <= Py.round (max_price config) 4)).
Proof.
  destruct (process_machines_trace config cli s)
    as [_ (delta & -> & Hall & Hno & _)].
  intro Hin. apply in_app_or in Hin as [Hin|[Hin|Hin]];
    [now left|discriminate|right].
  rewrite Forall_forall in Hall.
  destruct (Hall _ Hin) as (m & t & Hm & Hid & Hr & ->).
  split; [|split].
  - destruct (test_mode config); [|reflexivity].
    specialize (Hno eq_refl). rewrite Forall_forall in Hno.
    now apply Hno in Hin.
  - exists m. repeat split; assumption.
  - apply clamp_bounds.
Qed.

Lemma prices_sent_are_bounded_witness :
  (exists m,
     In m (get_my_machines default_config
             (Some (mkMachinesResponse (Some sample_listing)))) /\
     id m = 7%Z /\ is_rented m = false) /\
  Py.round (base_price default_config) 4 <= 0.7360 /\
  0.7360 <= Py.round (max_price default_config) 4.
Proof.
  destruct (prices_sent_are_bounded default_config sample_cli
              (mkSession tt []) 7 0.7360) as [[]|(_ & Hm & Hb)].
  - right. right. left. reflexivity.
  - split; [exact Hm|]. apply Hb. discriminate.
Defined.

(** X16.  A round of [process_machines] issues one listing, then one
    search per listed machine, in the order of the listing, each for that
    machine's GPU name and count; nothing else is issued but new
    prices. *)
Theorem one_search_per_listed_machine {W : Type} (config : PricingConfig)
    (cli : Cli W) (s : Session W) :
  exists delta,
    issued (snd (process_machines config cli s))
    = issued s ++ ShowMachines :: delta /\
    filter is_search_offers delta =
    map (fun m => SearchOffers (search_query_for (gpu_name m) (num_gpus m)))
      (get_my_machines config (fst (show_machines cli (world s)))) /\
    Forall (fun c => is_search_offers c = true \/ is_set_min_bid c = true)
      delta.
Proof.
  destruct (process_machines_trace config cli s)
    as [_ (delta & Hiss & Hall & _ & Hs)].
  exists delta. split; [assumption|]. split; [now symmetry|].
  eapply Forall_impl; [|exact Hall].
  intros [|q|i p]; cbn; [intros []|now left|now right].
Qed.

(** * Repricing on a market that does not move *)

Lemma stat_on_grid (f : list Q -> Q) (l : list Q) (q : Q) :
  (forall l', Py.round (f l') 4 = f l') ->
  stat_of f l = Some q -> Py.round q 4 = q.
Proof.
  intros Hf H. apply stat_of_Some in H as [_ ->]. apply Hf.
Qed.

(** The statistics the engine reads are multiples of 0.0001. *)
Lemma built_on_grid (offers : option (list Offer)) (q : Q) :
  median_price (get_market_data offers) = Some q \/
  min_price (get_market_data offers) = Some q \/
  min_verified_price (get_market_data offers) = Some q ->
  Py.round q 4 = q.
Proof.
  destruct offers as [offers|]; [|intros [H|[H|H]]; discriminate].
  rewrite built_snapshot.
  cbn [median_price min_price min_verified_price].
  intros [H|[H|H]]; revert H; apply stat_on_grid; intro l'; apply round_idem.
Qed.

Lemma reference_min_on_grid (offers : option (list Offer)) (m : Machine)
    (rmin : Q) :
  reference_min (get_market_data offers) m = Some rmin ->
  Py.round rmin 4 = rmin.
Proof.
  unfold reference_min. intro H. apply (built_on_grid offers).
  destruct (verified m && Py.truthy _); auto.
Qed.

(** At or below the median, one round settles the price. *)
Lemma settles_below_median (config : PricingConfig)
    (offers : option (list Offer)) (median rmin : Q) (m : Machine) :
  median_price (get_market_data offers) = Some median ->
  ~ median == 0 ->
  is_rented m = false ->
  reference_min (get_market_data offers) m = Some rmin ->
  base_price config <= rmin ->
  current_price m <= median ->
  let m1 := next_round config (get_market_data offers) m in
  calculate_price config m1 (get_market_data offers) =
  Ok (mkPriceDecision (current_price m1) HOLD
        "Machine IDLE but already at/below market minimum - holding price")
  /\ next_round config (get_market_data offers) m1 = m1.
Proof.
  intros median_present median_usable Hr Href Hfloor Hle. cbv zeta.
  set (market := get_market_data offers) in *.
  pose proof (get_market_data_ok offers) as Hok. fold market in Hok.
  assert (Hheld : forall m',
            is_rented m' = false -> verified m' = verified m ->
            current_price m' <= median -> current_price m' <= rmin ->
            calculate_price config m' market =
            Ok (mkPriceDecision (current_price m') HOLD
                  "Machine IDLE but already at/below market minimum - holding price")
            /\ next_round config market m' = m').
  { intros m' Hr' Hv' Hle' Hmin'.
    assert (E : calculate_price config m' market =
                Ok (mkPriceDecision (current_price m') HOLD
                      "Machine IDLE but already at/below market minimum - holding price")).
    { rewrite calculate_price_dispatch by assumption. rewrite Hr'.
      apply idle_at_or_below_min with median rmin; try assumption.
      unfold reference_min in *. now rewrite Hv'. }
    split; [exact E|]. unfold next_round. now rewrite E. }
  destruct (Qlt_le_dec rmin (current_price m)) as [Hlt|Hge].
  - (* a cut to just under the reference minimum, then HOLD *)
    assert (E : calculate_price config m market =
                Ok (mkPriceDecision (_clamp_price config (rmin * 0.92))
                      DECREASE
                      "Machine IDLE - pricing near market minimum to attract customers")).
    { rewrite calculate_price_dispatch by assumption. rewrite Hr.
      rewrite (idle_between config m market median rmin) by assumption.
      now rewrite (proj2 (gtb_true _ _) (dead_band_never_met _ _ Hlt)). }
    assert (En : next_round config market m =
                 with_price m (_clamp_price config (rmin * 0.92)))
      by (unfold next_round; now rewrite E).
    rewrite En.
    pose proof (reference_min_nonneg _ _ _ Hok Href) as Hpos.
    assert (Hp : _clamp_price config (rmin * 0.92) <= rmin).
    { rewrite <- (reference_min_on_grid offers m rmin Href) at 2.
      apply clamp_le; [assumption|lra]. }
    apply Hheld; cbn [with_price is_rented verified current_price];
      try reflexivity; try assumption.
    apply Qle_trans with rmin; [assumption|].
    apply Qle_trans with (current_price m); [now apply Qlt_le_weak|assumption].
  - destruct (Hheld m Hr eq_refl Hle Hge) as [E1 E2].
    rewrite E2. now split.
Qed.

(** X17.  On an offer list that does not change and has a present,
    non-zero overall median, with the floor at or below both that median
    and the machine's reference minimum, an idle machine whose decisions
    are applied is repriced at most twice: after two rounds the decision
    is HOLD at the price it then has, and it stays HOLD. *)
Theorem repricing_settles_in_two_rounds (config : PricingConfig)
    (offers : option (list Offer)) (median rmin : Q) (m : Machine) :
  median_price (get_market_data offers) = Some median ->
  ~ median == 0 ->
  base_price config <= median ->
  is_rented m = false ->
  reference_min (get_market_data offers) m = Some rmin ->
  base_price config <= rmin ->
  let market := get_market_data offers in
  let m2 := next_round config market (next_round config market m) in
  calculate_price config m2 market =
  Ok (mkPriceDecision (current_price m2) HOLD
        "Machine IDLE but already at/below market minimum - holding price")
  /\ next_round config market m2 = m2.
Proof.
  intros median_present median_usable floor_below_median Hr Href Hfloor.
  cbv zeta.
  set (market := get_market_data offers) in *.
  pose proof (get_market_data_ok offers) as Hok. fold market in Hok.
  destruct (Qlt_le_dec median (current_price m)) as [Hlt|Hle].
  - (* above the median: a cut to below the median first *)
    assert (E : next_round config market m =
                with_price m
                  (_clamp_price config
                     (median * (if verified m then 0.95 else 0.90)))).
    { unfold next_round. rewrite calculate_price_dispatch by assumption.
      rewrite Hr.
      now rewrite (idle_above_median config m market median). }
    rewrite E.
    apply (settles_below_median config offers median rmin);
      cbn [with_price is_rented verified current_price];
      try assumption; try reflexivity.
    pose proof (median_nonneg _ _ Hok median_present) as Hpos.
    rewrite <- (built_on_grid offers median (or_introl median_present)) at 2.
    apply clamp_le; [assumption|]. destruct (verified m); lra.
  - destruct (settles_below_median config offers median rmin m
                median_present median_usable Hr Href Hfloor Hle)
      as [E1 E2].
    fold market in E1, E2. rewrite E2. now split.
Qed.

Lemma repricing_settles_in_two_rounds_witness :
  let market := get_market_data (Some verified_feed) in
  let m2 := next_round default_config market
              (next_round default_config market (machine 1.50 false true)) in
  calculate_price default_config m2 market =
  Ok (mkPriceDecision (current_price m2) HOLD
        "Machine IDLE but already at/below market minimum - holding price")
  /\ next_round default_config market m2 = m2.
Proof.
  apply (repricing_settles_in_two_rounds default_config (Some verified_feed)
           1.2000 0.8000 (machine 1.50 false true));
    try reflexivity; discriminate.
Defined.

Lemma clamp_at_floor (config : PricingConfig) (target : Q) :
  target <= base_price config ->
  _clamp_price config target = Py.round (base_price config) 4.
Proof.
  intro Hle. unfold _clamp_price.
  destruct (max2_cases (base_price config)
              (Py.min2 target (max_price config)))
    as [[H _]|[_ ->]]; [exfalso|reflexivity].
  destruct (min2_cases target (max_price config)) as [[H' E]|[_ E]];
    rewrite E in H; lra.
Qed.

(** X18.  With the floor above the reference minimum the price does not
    settle: an idle machine at or below the median and above its
    reference minimum, whose target [reference_min * 0.92] is at or below
    [base_price], is decreased to the rounded floor, and a machine that
    already sits at that floor gets, round after round, a DECREASE that
    carries its own price. *)
Theorem floor_above_minimum_never_settles (config : PricingConfig)
    (m : Machine) (market : MarketData) (median rmin : Q) :
  snapshot_ok market = true ->
  is_rented m = false ->
  median_price market = Some median ->
  reference_min market m = Some rmin ->
  current_price m <= median ->
  rmin < current_price m ->
  rmin * 0.92 <= base_price config ->
  calculate_price config m market =
  Ok (mkPriceDecision (Py.round (base_price config) 4) DECREASE
        "Machine IDLE - pricing near market minimum to attract customers")
  /\ (current_price m = Py.round (base_price config) 4 ->
      next_round config market m = m).
Proof.
  intros Hok Hr Hmed Href Hle Hlt Hfloor.
  assert (Hnz : ~ median == 0).
  { intro Hz. pose proof (reference_min_nonneg _ _ _ Hok Href). lra. }
  assert (E : calculate_price config m market =
              Ok (mkPriceDecision (Py.round (base_price config) 4) DECREASE
                    "Machine IDLE - pricing near market minimum to attract customers")).
  { rewrite calculate_price_dispatch by assumption. rewrite Hr.
    rewrite (idle_between config m market median rmin) by assumption.
    rewrite (proj2 (gtb_true _ _) (dead_band_never_met _ _ Hlt)).
    now rewrite clamp_at_floor. }
  split; [exact E|].
  intro Hc. unfold next_round. rewrite E.
  cbn [apply_decision action new_price]. rewrite <- Hc.
  now destruct m.
Qed.

Lemma floor_above_minimum_never_settles_witness :
  let market := get_market_data (Some four_feed) in
  let m := machine 0.5000 false false in
  calculate_price default_config m market =
  Ok (mkPriceDecision 0.5000 DECREASE
        "Machine IDLE - pricing near market minimum to attract customers")
  /\ next_round default_config market m = m.
Proof.
  cbv zeta.
  destruct (floor_above_minimum_never_settles default_config
              (machine 0.5000 false false)
              (get_market_data (Some four_feed)) 0.8000 0.4000)
    as [E Hn].
  - reflexivity.
  - reflexivity.
  - reflexivity.
  - reflexivity.
  - discriminate.
  - reflexivity.
  - discriminate.
  - split; [exact E|]. apply Hn. reflexivity.
Defined.
